(** * Employee pairs: overlap engine of [src/src/App.tsx]

    A shallow embedding of the computation behind the "Employee Project
    Pairs" page: date normalisation ([datePatterns], [parseDate]), row
    validation, pairwise overlap of work assignments, the two aggregation
    maps and the selection of the top pair(s) ([processData]).  The earlier
    revision of the page kept in [src/unnamed/part_000] is embedded next to
    it (module [Part000]).

    Conventions.
    - A JavaScript string is a [string]; its characters are read as code
      units in the range 0..255.
    - A time value (the number inside a [Date]) is an integer number of
      milliseconds; [option Z] with [None] for NaN is a possibly invalid
      [Date].  Day counts and their sums are integers as well: the
      arithmetic of the source is exact on them below 2^53.
    - Employee and project identifiers are integers (the data model of the
      specification); [None] stands for NaN.  Tokens that denote other
      numbers (fractions, infinities) are outside this model.
    - What the page takes from the JavaScript host (conversion of a token to
      a number, the local time zone, the free-form date parser and the
      clock) is collected in the record [Host]. *)

From Stdlib Require Import ZArith List String Ascii Bool Lia Permutation.
From Stdlib Require Import DecimalString DecimalPos DecimalZ.
Import ListNotations.

Local Open Scope string_scope.
Local Open Scope Z_scope.

(** ** Strings *)

Module Str.

(** [WhiteSpace] and [LineTerminator] code units below 256: TAB, LF, VT, FF,
    CR, SP and NBSP. *)
Definition isWhiteSpace (c : ascii) : bool :=
  let n := nat_of_ascii c in
  ((9 <=? n) && (n <=? 13) || (n =? 32) || (n =? 160))%nat.

Fixpoint trimStart (s : string) : string :=
  match s with
  | EmptyString => EmptyString
  | String c s' => if isWhiteSpace c then trimStart s' else s
  end.

Fixpoint trimEnd (s : string) : string :=
  match s with
  | EmptyString => EmptyString
  | String c s' =>
      match trimEnd s' with
      | EmptyString => if isWhiteSpace c then EmptyString else String c EmptyString
      | t => String c t
      end
  end.

(** [String.prototype.trim] *)
Definition trim (s : string) : string := trimEnd (trimStart s).

(** Lower-case mapping of one code unit: A-Z, and the Latin-1 capitals
    192..222 without the multiplication sign 215. *)
Definition lowerChar (c : ascii) : ascii :=
  let n := nat_of_ascii c in
  if ((65 <=? n) && (n <=? 90))%nat then ascii_of_nat (n + 32)
  else if ((192 <=? n) && (n <=? 222) && negb (n =? 215))%nat then ascii_of_nat (n + 32)
  else c.

(** [String.prototype.toLowerCase] *)
Fixpoint toLowerCase (s : string) : string :=
  match s with
  | EmptyString => EmptyString
  | String c s' => String (lowerChar c) (toLowerCase s')
  end.

(** [s.split(sep)] for a separator of one character. *)
Fixpoint split (sep : ascii) (s : string) : list string :=
  match s with
  | EmptyString => [EmptyString]
  | String c s' =>
      if Ascii.eqb c sep then EmptyString :: split sep s'
      else match split sep s' with
           | h :: t => String c h :: t
           | [] => [String c EmptyString]
           end
  end.

(** [\d] *)
Definition isDigit (c : ascii) : bool :=
  let n := nat_of_ascii c in ((48 <=? n) && (n <=? 57))%nat.

Definition digitValue (c : ascii) : Z := Z.of_nat (nat_of_ascii c) - 48.

(** Value of a string of decimal digits, most significant digit first. *)
Fixpoint decimalFrom (acc : Z) (s : string) : Z :=
  match s with
  | EmptyString => acc
  | String c s' => decimalFrom (10 * acc + digitValue c) s'
  end.

Definition decimalValue (s : string) : Z := decimalFrom 0 s.

Fixpoint allDigits (s : string) : bool :=
  match s with
  | EmptyString => true
  | String c s' => isDigit c && allDigits s'
  end.

(** The string of an integer inside a template literal. *)
Definition ofNumber (z : Z) : string := NilZero.string_of_int (Z.to_int z).

End Str.

(** ** Regular expressions of [datePatterns]

    The four patterns are anchored sequences of [\d{n}] and literal
    characters. *)

Module Regex.

Inductive atom : Type :=
| Digits (n : nat)      (* \d{n} *)
| Lit (c : ascii).      (* a literal character *)

Definition regex := list atom.

Fixpoint matchDigits (n : nat) (s : string) : option string :=
  match n with
  | O => Some s
  | S n' =>
      match s with
      | String c s' => if Str.isDigit c then matchDigits n' s' else None
      | EmptyString => None
      end
  end.

(** [regex.test(s)] for [^ ... $]: the whole string is consumed. *)
Fixpoint test (r : regex) (s : string) : bool :=
  match r with
  | [] => match s with EmptyString => true | _ => false end
  | Digits n :: r' =>
      match matchDigits n s with
      | Some s' => test r' s'
      | None => false
      end
  | Lit c :: r' =>
      match s with
      | String c' s' => Ascii.eqb c' c && test r' s'
      | EmptyString => false
      end
  end.

End Regex.

(** ** The host *)

Definition msPerDay : Z := 1000 * 60 * 60 * 24.

(** Largest magnitude of a time value ([TimeClip]). *)
Definition maxTime : Z := 8640000000000000.

Record Host : Type := {
  (** [Number(token)]: the numeric value of a token, [None] for NaN. *)
  Number : string -> option Z;
  (** [UTC(t)]: the time value of the local time [t]. *)
  UTC : Z -> Z;
  (** [Date.parse(s)], the free-form parser behind [new Date(s)]. *)
  Date_parse : string -> option Z;
  (** [Date.now()] at the [k]-th reading of the clock in a run. *)
  Date_now : nat -> Z;
  (** Short strings of decimal digits denote their decimal value. *)
  Number_digits : forall s,
    Str.allDigits s = true -> (0 < String.length s <= 15)%nat ->
    Number s = Some (Str.decimalValue s);
  (** Local time is within a day of UTC. *)
  UTC_offset : forall t, Z.abs (UTC t - t) <= msPerDay
}.

(** ** Dates: the constructor [new Date(year, month, date)] *)

Module JSDate.

Definition DaysInYear (y : Z) : Z :=
  if negb (y mod 4 =? 0) then 365
  else if negb (y mod 100 =? 0) then 366
  else if negb (y mod 400 =? 0) then 365
  else 366.

Definition InLeapYear (y : Z) : Z := if DaysInYear y =? 366 then 1 else 0.

Definition DayFromYear (y : Z) : Z :=
  365 * (y - 1970) + (y - 1969) / 4 - (y - 1901) / 100 + (y - 1601) / 400.

(** Day within the year of the first day of month [mn] (0 = January). *)
Definition monthStart (mn leap : Z) : Z :=
  if mn =? 0 then 0
  else if mn =? 1 then 31
  else if mn =? 2 then 59 + leap
  else if mn =? 3 then 90 + leap
  else if mn =? 4 then 120 + leap
  else if mn =? 5 then 151 + leap
  else if mn =? 6 then 181 + leap
  else if mn =? 7 then 212 + leap
  else if mn =? 8 then 243 + leap
  else if mn =? 9 then 273 + leap
  else if mn =? 10 then 304 + leap
  else 334 + leap.

(** [MakeDay(year, month, date)]: months outside 0..11 carry into the year,
    days outside the month carry into the following or preceding months. *)
Definition MakeDay (year month date : Z) : Z :=
  let ym := year + month / 12 in
  let mn := month mod 12 in
  DayFromYear ym + monthStart mn (InLeapYear ym) + date - 1.

Definition MakeDate (day time : Z) : Z := day * msPerDay + time.

Definition TimeClip (t : Z) : option Z :=
  if Z.abs t >? maxTime then None else Some t.

(** Years 0..99 mean 1900..1999. *)
Definition MakeFullYear (y : Z) : Z :=
  if (0 <=? y) && (y <=? 99) then 1900 + y else y.

(** [new Date(year, month, date)] in local time; a NaN argument gives an
    invalid date. *)
Definition construct (h : Host) (year month date : option Z) : option Z :=
  match year, month, date with
  | Some y, Some m, Some dt =>
      TimeClip (UTC h (MakeDate (MakeDay (MakeFullYear y) m dt) 0))
  | _, _, _ => None
  end.

(** [new Date(s)] *)
Definition ofString (h : Host) (s : string) : option Z :=
  match Date_parse h s with
  | Some t => TimeClip t
  | None => None
  end.

End JSDate.

(** ** [datePatterns] and [parseDate]

    These declarations, and [differenceInDays] below, have the same text in
    [src/src/App.tsx] and in [src/unnamed/part_000]; they are embedded
    once. *)

(** [Number(parts[i])]; a missing part is [undefined], whose number is
    NaN. *)
Definition NumberAt (h : Host) (parts : list string) (i : nat) : option Z :=
  match nth_error parts i with
  | Some p => Number h p
  | None => None
  end.

(** [x - 1] on numbers: NaN stays NaN. *)
Definition pred1 (x : option Z) : option Z := option_map (fun v => v - 1) x.

(** A parser returns a [Date], which may be invalid ([None]); none of the
    four parsers returns [null]. *)
Definition parser : Type := Host -> string -> option Z.

Definition datePatterns : list (Regex.regex * parser) :=
  [ (* yyyy-MM-dd *)
    ([Regex.Digits 4; Regex.Lit "-"; Regex.Digits 2; Regex.Lit "-"; Regex.Digits 2],
     fun h dateStr =>
       let parts := Str.split "-" dateStr in
       JSDate.construct h (NumberAt h parts 0) (pred1 (NumberAt h parts 1)) (NumberAt h parts 2));
    (* MM/dd/yyyy *)
    ([Regex.Digits 2; Regex.Lit "/"; Regex.Digits 2; Regex.Lit "/"; Regex.Digits 4],
     fun h dateStr =>
       let parts := Str.split "/" dateStr in
       JSDate.construct h (NumberAt h parts 2) (pred1 (NumberAt h parts 0)) (NumberAt h parts 1));
    (* dd-MM-yyyy *)
    ([Regex.Digits 2; Regex.Lit "-"; Regex.Digits 2; Regex.Lit "-"; Regex.Digits 4],
     fun h dateStr =>
       let parts := Str.split "-" dateStr in
       JSDate.construct h (NumberAt h parts 2) (pred1 (NumberAt h parts 1)) (NumberAt h parts 0));
    (* dd/MM/yyyy *)
    ([Regex.Digits 2; Regex.Lit "/"; Regex.Digits 2; Regex.Lit "/"; Regex.Digits 4],
     fun h dateStr =>
       let parts := Str.split "/" dateStr in
       JSDate.construct h (NumberAt h parts 2) (pred1 (NumberAt h parts 1)) (NumberAt h parts 0)) ].

(** The loop of [parseDate] over a table of patterns: the first pattern
    that matches and whose parser gives a valid date decides. *)
Fixpoint tryPatterns (h : Host) (pats : list (Regex.regex * parser)) (dateStr : string)
  : option Z :=
  match pats with
  | [] => None
  | (regex, parse) :: rest =>
      if Regex.test regex dateStr then
        match parse h dateStr with
        | Some d => Some d
        | None => tryPatterns h rest dateStr
        end
      else tryPatterns h rest dateStr
  end.

(** The body of [parseDate] over a table of patterns, run when the clock
    has been read [k] times.  The result is the time value of the date, or
    [None] for [null], together with the number of clock readings
    afterwards. *)
Definition parseDateWith (pats : list (Regex.regex * parser)) (h : Host) (k : nat)
  (dateStr : string) : option Z * nat :=
  if (dateStr =? "")%string || (Str.toLowerCase dateStr =? "null")%string then
    (Some (Date_now h k), S k) (* today *)
  else
    let dateStr := Str.trim dateStr in
    match tryPatterns h pats dateStr with
    | Some d => (Some d, k)
    | None => (JSDate.ofString h dateStr, k) (* fallback to Date constructor *)
    end.

(** [parseDate(dateStr)] *)
Definition parseDate : Host -> nat -> string -> option Z * nat :=
  parseDateWith datePatterns.

Definition differenceInDays (date1 date2 : Z) : Z :=
  let diffTime := Z.abs (date2 - date1) in
  diffTime / (1000 * 60 * 60 * 24).

(** ** Data *)

Record EmployeeRecord : Type := {
  EmpID : Z;
  ProjectID : Z;
  DateFrom : Z;
  DateTo : Z
}.

Record PairProjectDays : Type := {
  emp1 : Z;
  emp2 : Z;
  projectId : Z;
  totalDaysWorked : Z
}.

(** [existing.totalDaysWorked += days] *)
Definition addDays (existing : PairProjectDays) (days : Z) : PairProjectDays :=
  {| emp1 := emp1 existing; emp2 := emp2 existing; projectId := projectId existing;
     totalDaysWorked := totalDaysWorked existing + days |}.

Module Total.
Record PairTotalDays : Type := {
  emp1 : Z;
  emp2 : Z;
  totalDaysWorked : Z
}.

(** [existing.totalDaysWorked += days] *)
Definition addDays (existing : PairTotalDays) (days : Z) : PairTotalDays :=
  {| emp1 := emp1 existing; emp2 := emp2 existing;
     totalDaysWorked := totalDaysWorked existing + days |}.
End Total.

(** A [Map] with string keys: the entries in insertion order, every key at
    most once. *)
Module JSMap.
Section Ops.
Context {V : Type}.

Definition t : Type := list (string * V).

Fixpoint get (key : string) (m : t) : option V :=
  match m with
  | [] => None
  | (k, v) :: m' => if (k =? key)%string then Some v else get key m'
  end.

Definition has (key : string) (m : t) : bool :=
  match get key m with Some _ => true | None => false end.

(** [set] keeps the position of a key that is present and appends a new
    one. *)
Fixpoint set (key : string) (v : V) (m : t) : t :=
  match m with
  | [] => [(key, v)]
  | (k, x) :: m' => if (k =? key)%string then (k, v) :: m' else (k, x) :: set key v m'
  end.

(** [Array.from(m.values())] *)
Definition values (m : t) : list V := map snd m.

End Ops.
Arguments t : clear implicits.
End JSMap.

(** The state of the component. *)
Record AppState : Type := {
  pairs : list PairProjectDays;
  error : option string;
  fileUploaded : bool
}.

(** The rows of the table the component renders. *)
Definition renderedRows (st : AppState) : list PairProjectDays :=
  if fileUploaded st then pairs st else [].

(** ** [processData] of [src/src/App.tsx] *)

(** The first loop: rows to records.  [None] is the early return after
    [setError].  [k] counts the readings of the clock. *)
Fixpoint readRecords (h : Host) (k : nat) (data : list (list string))
  (records : list EmployeeRecord) : option (list EmployeeRecord) :=
  match data with
  | [] => Some records
  | row :: data' =>
      match row with
      | r0 :: r1 :: r2 :: r3 :: _ =>
          let EmpID := Number h r0 in
          let ProjectID := Number h r1 in
          let '(DateFrom, k1) := parseDate h k r2 in
          let '(DateTo, k2) := parseDate h k1 r3 in
          match EmpID, ProjectID, DateFrom, DateTo with
          | Some e, Some p, Some f, Some t =>
              readRecords h k2 data'
                (records ++ [{| EmpID := e; ProjectID := p; DateFrom := f; DateTo := t |}])
          | _, _, _, _ => None
          end
      | _ => readRecords h k data' records (* row.length < 4 *)
      end
  end.

Definition Maps : Type := JSMap.t PairProjectDays * JSMap.t Total.PairTotalDays.

(** The body of the two nested loops for the records [p1] (at [i]) and [p2]
    (at [j > i]). *)
Definition visit (p1 p2 : EmployeeRecord) (maps : Maps) : Maps :=
  let '(pairMap, pairMapTotal) := maps in
  if (ProjectID p1 =? ProjectID p2) && negb (EmpID p1 =? EmpID p2) then
    let start := if DateFrom p1 >? DateFrom p2 then DateFrom p1 else DateFrom p2 in
    let end_ := if DateTo p1 <? DateTo p2 then DateTo p1 else DateTo p2 in
    if end_ >=? start then
      let days := differenceInDays end_ start + 1 in
      let emp1 := Z.min (EmpID p1) (EmpID p2) in
      let emp2 := Z.max (EmpID p1) (EmpID p2) in
      let projectId := ProjectID p1 in
      let key := Str.ofNumber emp1 ++ "-" ++ Str.ofNumber emp2 ++ "-" ++ Str.ofNumber projectId in
      let pairMap' :=
        match JSMap.get key pairMap with
        | Some existing =>
            JSMap.set key (addDays existing days) pairMap
        | None =>
            JSMap.set key
              {| emp1 := emp1; emp2 := emp2; projectId := projectId;
                 totalDaysWorked := days |} pairMap
        end in
      let keyTotal := Str.ofNumber emp1 ++ "-" ++ Str.ofNumber emp2 in
      let pairMapTotal' :=
        match JSMap.get keyTotal pairMapTotal with
        | Some existing =>
            JSMap.set keyTotal (Total.addDays existing days) pairMapTotal
        | None =>
            JSMap.set keyTotal
              {| Total.emp1 := emp1; Total.emp2 := emp2; Total.totalDaysWorked := days |}
              pairMapTotal
        end in
      (pairMap', pairMapTotal')
    else maps
  else maps.

(** [for (let j = i + 1; ...)]: [p1] against the records after it. *)
Fixpoint innerLoop (p1 : EmployeeRecord) (rest : list EmployeeRecord) (maps : Maps) : Maps :=
  match rest with
  | [] => maps
  | p2 :: rest' => innerLoop p1 rest' (visit p1 p2 maps)
  end.

(** [for (let i = 0; ...)] *)
Fixpoint outerLoop (records : list EmployeeRecord) (maps : Maps) : Maps :=
  match records with
  | [] => maps
  | p1 :: rest => outerLoop rest (innerLoop p1 rest maps)
  end.

(** [Math.max(...xs)]; [None] is the -Infinity of no argument. *)
Definition MathMax (xs : list Z) : option Z :=
  fold_left (fun acc x => match acc with
                          | None => Some x
                          | Some a => Some (Z.max a x)
                          end) xs None.

(** [x === highestMaxScore] *)
Definition strictEq (x : Z) (m : option Z) : bool :=
  match m with
  | Some v => x =? v
  | None => false
  end.

(** The selection at the end of [processData]. *)
Definition selectTop (pairMap : JSMap.t PairProjectDays)
  (pairMapTotal : JSMap.t Total.PairTotalDays) : list PairProjectDays :=
  let highestMaxScore :=
    MathMax (map (fun member => Total.totalDaysWorked member) (JSMap.values pairMapTotal)) in
  let pairMapTotalResult :=
    filter (fun member => strictEq (Total.totalDaysWorked member) highestMaxScore)
           (JSMap.values pairMapTotal) in
  let filtered :=
    filter (fun ppd =>
              existsb (fun ptd => (Total.emp1 ptd =? emp1 ppd) && (Total.emp2 ptd =? emp2 ppd))
                      pairMapTotalResult)
           (JSMap.values pairMap) in
  filtered.

Definition invalidData : string := "Invalid data format in CSV.".

Definition processData (h : Host) (st : AppState) (data : list (list string)) : AppState :=
  match readRecords h 0 data [] with
  | None =>
      {| pairs := pairs st; error := Some invalidData; fileUploaded := false |}
  | Some records =>
      let '(pairMap, pairMapTotal) := outerLoop records ([], []) in
      {| pairs := selectTop pairMap pairMapTotal;
         error := None;
         fileUploaded := fileUploaded st |}
  end.

(** ** [processData] of [src/unnamed/part_000]

    The earlier revision: one aggregation map, and every entry of it is
    shown. *)

Module Part000.

(** [EmployeeProject] has the fields of [EmployeeRecord]. *)
Abbreviation EmployeeProject := EmployeeRecord (only parsing).

Fixpoint readProjects (h : Host) (k : nat) (data : list (list string))
  (projects : list EmployeeProject) : option (list EmployeeProject) :=
  match data with
  | [] => Some projects
  | row :: data' =>
      match row with
      | r0 :: r1 :: r2 :: r3 :: _ =>
          let EmpID := Number h r0 in
          let ProjectID := Number h r1 in
          let '(DateFrom, k1) := parseDate h k r2 in
          let '(DateTo, k2) := parseDate h k1 r3 in
          match EmpID, ProjectID, DateFrom, DateTo with
          | Some e, Some p, Some f, Some t =>
              readProjects h k2 data'
                (projects ++ [{| EmpID := e; ProjectID := p; DateFrom := f; DateTo := t |}])
          | _, _, _, _ => None
          end
      | _ => readProjects h k data' projects
      end
  end.

Definition visit (p1 p2 : EmployeeProject) (pairMap : JSMap.t PairProjectDays)
  : JSMap.t PairProjectDays :=
  if (ProjectID p1 =? ProjectID p2) && negb (EmpID p1 =? EmpID p2) then
    let start := if DateFrom p1 >? DateFrom p2 then DateFrom p1 else DateFrom p2 in
    let end_ := if DateTo p1 <? DateTo p2 then DateTo p1 else DateTo p2 in
    if end_ >=? start then
      let days := differenceInDays end_ start + 1 in
      let emp1 := Z.min (EmpID p1) (EmpID p2) in
      let emp2 := Z.max (EmpID p1) (EmpID p2) in
      let projectId := ProjectID p1 in
      let key := Str.ofNumber emp1 ++ "-" ++ Str.ofNumber emp2 ++ "-" ++ Str.ofNumber projectId in
      match JSMap.get key pairMap with
      | Some existing => JSMap.set key (addDays existing days) pairMap
      | None =>
          JSMap.set key
            {| emp1 := emp1; emp2 := emp2; projectId := projectId;
               totalDaysWorked := days |} pairMap
      end
    else pairMap
  else pairMap.

Fixpoint innerLoop (p1 : EmployeeProject) (rest : list EmployeeProject)
  (pairMap : JSMap.t PairProjectDays) : JSMap.t PairProjectDays :=
  match rest with
  | [] => pairMap
  | p2 :: rest' => innerLoop p1 rest' (visit p1 p2 pairMap)
  end.

Fixpoint outerLoop (projects : list EmployeeProject) (pairMap : JSMap.t PairProjectDays)
  : JSMap.t PairProjectDays :=
  match projects with
  | [] => pairMap
  | p1 :: rest => outerLoop rest (innerLoop p1 rest pairMap)
  end.

Definition processData (h : Host) (st : AppState) (data : list (list string)) : AppState :=
  match readProjects h 0 data [] with
  | None =>
      {| pairs := pairs st; error := Some invalidData; fileUploaded := false |}
  | Some projects =>
      {| pairs := JSMap.values (outerLoop projects []);
         error := None;
         fileUploaded := fileUploaded st |}
  end.

End Part000.

(** ** A host for concrete runs

    Used to run the definitions on concrete batches.  The zone is UTC; the
    conversion to a number reads integer literals (optional white space
    around an optional sign and decimal digits; the empty string is 0) and
    answers NaN to every other token; the free-form date parser recognises
    nothing. *)

Module RefHost.

Definition number (s : string) : option Z :=
  match Str.trim s with
  | EmptyString => Some 0
  | String "-" r =>
      if Str.allDigits r && negb (r =? "")%string then Some (- Str.decimalValue r) else None
  | String "+" r =>
      if Str.allDigits r && negb (r =? "")%string then Some (Str.decimalValue r) else None
  | t => if Str.allDigits t then Some (Str.decimalValue t) else None
  end.

Definition host : Host.
Proof.
  refine {| Number := number;
            UTC := fun t => t;
            Date_parse := fun _ => None;
            Date_now := fun k => 1700000000000 + Z.of_nat k;
            Number_digits := _;
            UTC_offset := _ |}.
  - intros s H Hl.
    assert (Hws : forall c, Str.isDigit c = true -> Str.isWhiteSpace c = false).
    { intros c Hc.
      destruct c as [[] [] [] [] [] [] [] []]; vm_compute in Hc |- *; congruence. }
    assert (Hend : forall u, Str.allDigits u = true -> Str.trimEnd u = u).
    { induction u as [|c u IH]; simpl; [reflexivity|].
      intros Hu; apply andb_prop in Hu; destruct Hu as [Hc Hu].
      rewrite (IH Hu). destruct u; [now rewrite (Hws c Hc) | reflexivity]. }
    destruct s as [|c s]; [simpl in Hl; lia|].
    assert (Hc : Str.isDigit c = true) by (simpl in H; now apply andb_prop in H).
    unfold number, Str.trim.
    replace (Str.trimStart (String c s)) with (String c s)
      by (simpl; now rewrite (Hws c Hc)).
    rewrite (Hend _ H).
    destruct c as [[] [] [] [] [] [] [] []];
      try (vm_compute in Hc; discriminate);
      cbv iota beta; rewrite H; reflexivity.
  - intros t. rewrite Z.sub_diag. vm_compute. discriminate.
Defined.

End RefHost.

(** ** A host with daylight saving time

    The zone is five hours behind UTC, and its clocks are one hour ahead
    from 10 March 2024, 2:00, to 3 November 2024, 2:00, local time (the
    rule of the United States for 2024; other years are left on standard
    time).  The rest is as in [RefHost]. *)

Module DstHost.

Definition hour : Z := 1000 * 60 * 60.

(** The local times of the two changes of the clocks. *)
Definition clocksForward : Z := JSDate.MakeDate (JSDate.MakeDay 2024 2 10) (2 * hour).
Definition clocksBack : Z := JSDate.MakeDate (JSDate.MakeDay 2024 10 3) (2 * hour).

Definition utc (t : Z) : Z :=
  if (clocksForward <=? t) && (t <? clocksBack) then t + 4 * hour else t + 5 * hour.

Definition host : Host.
Proof.
  refine {| Number := RefHost.number;
            UTC := utc;
            Date_parse := fun _ => None;
            Date_now := fun k => 1700000000000 + Z.of_nat k;
            Number_digits := Number_digits RefHost.host;
            UTC_offset := _ |}.
  intros t. unfold utc, hour, msPerDay.
  destruct ((clocksForward <=? t) && (t <? clocksBack)); lia.
Defined.

End DstHost.

(** ** Notions used in the statements *)

(** What one pair of records adds to the maps: the canonical pair, the
    project and the number of days. *)
Record Contribution : Type := {
  low : Z;
  high : Z;
  project : Z;
  days : Z
}.

(** The overlap of two records as section 4.3 of the specification words
    it: same project, distinct employees, [start = max] of the first days,
    [end = min] of the last days, nothing when [end < start], and otherwise
    the whole days from [start] to [end] plus one. *)
Definition contribution (p1 p2 : EmployeeRecord) : option Contribution :=
  if (ProjectID p1 =? ProjectID p2) && negb (EmpID p1 =? EmpID p2) then
    let start := Z.max (DateFrom p1) (DateFrom p2) in
    let end_ := Z.min (DateTo p1) (DateTo p2) in
    if start <=? end_ then
      Some {| low := Z.min (EmpID p1) (EmpID p2);
              high := Z.max (EmpID p1) (EmpID p2);
              project := ProjectID p1;
              days := (end_ - start) / msPerDay + 1 |}
    else None
  else None.

Definition pairKey (c : Contribution) : string :=
  Str.ofNumber (low c) ++ "-" ++ Str.ofNumber (high c) ++ "-" ++ Str.ofNumber (project c).

Definition totalKey (c : Contribution) : string :=
  Str.ofNumber (low c) ++ "-" ++ Str.ofNumber (high c).

Definition addPair (c : Contribution) (pairMap : JSMap.t PairProjectDays)
  : JSMap.t PairProjectDays :=
  match JSMap.get (pairKey c) pairMap with
  | Some existing => JSMap.set (pairKey c) (addDays existing (days c)) pairMap
  | None =>
      JSMap.set (pairKey c)
        {| emp1 := low c; emp2 := high c; projectId := project c;
           totalDaysWorked := days c |} pairMap
  end.

Definition addTotal (c : Contribution) (pairMapTotal : JSMap.t Total.PairTotalDays)
  : JSMap.t Total.PairTotalDays :=
  match JSMap.get (totalKey c) pairMapTotal with
  | Some existing => JSMap.set (totalKey c) (Total.addDays existing (days c)) pairMapTotal
  | None =>
      JSMap.set (totalKey c)
        {| Total.emp1 := low c; Total.emp2 := high c; Total.totalDaysWorked := days c |}
        pairMapTotal
  end.

Definition addBoth (maps : Maps) (c : Contribution) : Maps :=
  (addPair c (fst maps), addTotal c (snd maps)).

Definition toList {A : Type} (o : option A) : list A :=
  match o with
  | Some a => [a]
  | None => []
  end.

(** The contributions of a batch, in the order the loops meet them. *)
Fixpoint contributions (records : list EmployeeRecord) : list Contribution :=
  match records with
  | [] => []
  | p1 :: rest => flat_map (fun p2 => toList (contribution p1 p2)) rest ++ contributions rest
  end.

(** The days a list of contributions adds under the keys selected by [sel],
    on top of [init]; [None] when there is no entry. *)
Definition tally (sel : Contribution -> bool) (cs : list Contribution) (init : option Z)
  : option Z :=
  fold_left (fun acc c =>
               if sel c then Some (match acc with Some a => a | None => 0 end + days c)
               else acc) cs init.

(** A canonical pair of a batch: the smaller and the larger identifier of
    two of its records, and they differ. *)
Definition canonical (records : list EmployeeRecord) (e1 e2 : Z) : Prop :=
  e1 < e2 /\
  exists p1 p2, In p1 records /\ In p2 records /\
                e1 = Z.min (EmpID p1) (EmpID p2) /\ e2 = Z.max (EmpID p1) (EmpID p2).

(** A row of at least four tokens that the first loop of [processData]
    rejects: an identifier that is not a number, or a date that [parseDate]
    gives up on. *)
Definition isNaN (x : option Z) : bool :=
  match x with
  | Some _ => false
  | None => true
  end.

Definition malformedRow (h : Host) (row : list string) : bool :=
  match row with
  | r0 :: r1 :: r2 :: r3 :: _ =>
      isNaN (Number h r0) || isNaN (Number h r1)
      || isNaN (fst (parseDate h 0 r2)) || isNaN (fst (parseDate h 0 r3))
  | _ => false
  end.

Definition upperChar (c : ascii) : ascii :=
  let n := nat_of_ascii c in
  if ((97 <=? n) && (n <=? 122))%nat then ascii_of_nat (n - 32) else c.

(** The spellings of a lower-case word in either case of each letter. *)
Fixpoint caseVariants (s : string) : list string :=
  match s with
  | EmptyString => [EmptyString]
  | String c s' =>
      (map (String c) (caseVariants s') ++ map (String (upperChar c)) (caseVariants s'))%list
  end.

(** The shape [dd/dd/dddd] and the tokens that have it. *)
Definition slashShape : Regex.regex :=
  [Regex.Digits 2; Regex.Lit "/"; Regex.Digits 2; Regex.Lit "/"; Regex.Digits 4].

Definition twoChars (a b : ascii) : string := String a (String b EmptyString).

Definition fourChars (a b c d : ascii) : string :=
  String a (String b (String c (String d EmptyString))).

Definition slashToken (c0 c1 c3 c4 c6 c7 c8 c9 : ascii) : string :=
  twoChars c0 c1 ++ "/" ++ twoChars c3 c4 ++ "/" ++ fourChars c6 c7 c8 c9.

(** What holds of every entry of the two maps: the key is the text of the
    pair (and project) stored under it, and the pair is canonical. *)
Definition pairEntryOk (records : list EmployeeRecord) (entry : string * PairProjectDays)
  : Prop :=
  fst entry =
    Str.ofNumber (emp1 (snd entry)) ++ "-" ++ Str.ofNumber (emp2 (snd entry)) ++ "-"
      ++ Str.ofNumber (projectId (snd entry)) /\
  canonical records (emp1 (snd entry)) (emp2 (snd entry)).

Definition totalEntryOk (records : list EmployeeRecord)
  (entry : string * Total.PairTotalDays) : Prop :=
  fst entry =
    Str.ofNumber (Total.emp1 (snd entry)) ++ "-" ++ Str.ofNumber (Total.emp2 (snd entry)) /\
  canonical records (Total.emp1 (snd entry)) (Total.emp2 (snd entry)).

(** ** The example of the specification

    Four assignments: E1 and E2 on P1 (1 to 10 and 5 to 15 January 2024), E1
    and E3 on P2 (1 to 5 and 3 to 10 February 2024). *)

Module Sample.

Definition rows : list (list string) :=
  [ ["1"; "1"; "2024-01-01"; "2024-01-10"];
    ["2"; "1"; "2024-01-05"; "2024-01-15"];
    ["1"; "2"; "2024-02-01"; "2024-02-05"];
    ["3"; "2"; "2024-02-03"; "2024-02-10"] ].

(** Midnight UTC of a calendar day. *)
Definition day (y m d : Z) : Z := JSDate.MakeDate (JSDate.MakeDay y (m - 1) d) 0.

Definition e1p1 : EmployeeRecord :=
  {| EmpID := 1; ProjectID := 1; DateFrom := day 2024 1 1; DateTo := day 2024 1 10 |}.
Definition e2p1 : EmployeeRecord :=
  {| EmpID := 2; ProjectID := 1; DateFrom := day 2024 1 5; DateTo := day 2024 1 15 |}.
Definition e1p2 : EmployeeRecord :=
  {| EmpID := 1; ProjectID := 2; DateFrom := day 2024 2 1; DateTo := day 2024 2 5 |}.
Definition e3p2 : EmployeeRecord :=
  {| EmpID := 3; ProjectID := 2; DateFrom := day 2024 2 3; DateTo := day 2024 2 10 |}.

Definition records : list EmployeeRecord := [e1p1; e2p1; e1p2; e3p2].

Definition initial : AppState := {| pairs := []; error := None; fileUploaded := true |}.

(** Two employees on one project from 9 to 11 March 2024 (three days), and
    from 1 February to 30 April 2024 (ninety days). *)
Definition marchRows : list (list string) :=
  [ ["1"; "1"; "2024-03-09"; "2024-03-11"];
    ["2"; "1"; "2024-03-09"; "2024-03-11"] ].

Definition springRows : list (list string) :=
  [ ["1"; "1"; "2024-02-01"; "2024-04-30"];
    ["2"; "1"; "2024-02-01"; "2024-04-30"] ].

(** A batch whose second row has a non-numeric employee. *)
Definition badRows : list (list string) :=
  [ ["1"; "1"; "2024-01-01"; "2024-01-10"];
    ["x"; "1"; "2024-01-05"; "2024-01-15"] ].

(** Two pairs tied at 5 days and a third pair with 4. *)
Definition tiedPairMap : JSMap.t PairProjectDays :=
  [ ("1-2-1", {| emp1 := 1; emp2 := 2; projectId := 1; totalDaysWorked := 5 |});
    ("3-4-1", {| emp1 := 3; emp2 := 4; projectId := 1; totalDaysWorked := 2 |});
    ("5-6-1", {| emp1 := 5; emp2 := 6; projectId := 1; totalDaysWorked := 4 |});
    ("3-4-2", {| emp1 := 3; emp2 := 4; projectId := 2; totalDaysWorked := 3 |}) ].

Definition tiedPairMapTotal : JSMap.t Total.PairTotalDays :=
  [ ("1-2", {| Total.emp1 := 1; Total.emp2 := 2; Total.totalDaysWorked := 5 |});
    ("3-4", {| Total.emp1 := 3; Total.emp2 := 4; Total.totalDaysWorked := 5 |});
    ("5-6", {| Total.emp1 := 5; Total.emp2 := 6; Total.totalDaysWorked := 4 |}) ].

End Sample.

(** Rewrites [Number h s] for literal strings of digits [s]. *)
Ltac number_of_digits h :=
  repeat match goal with
         | |- context [Number h ?s] =>
             rewrite (Number_digits h s eq_refl ltac:(simpl; lia))
         end.

(** ** [parseCSV] *)

Definition LF : ascii := ascii_of_nat 10.
Definition CR : ascii := ascii_of_nat 13.

(** Puts a character in front of the first line. *)
Definition consHead (c : ascii) (lines : list string) : list string :=
  match lines with
  | first :: others => String c first :: others
  | [] => [String c EmptyString]
  end.

(** [csvText.split(/\r?\n/)]: a line ends at a line feed, and a carriage
    return right before it belongs to the line end. *)
Fixpoint splitLines (s : string) : list string :=
  match s with
  | EmptyString => [EmptyString]
  | String c s' =>
      if Ascii.eqb c LF then EmptyString :: splitLines s'
      else
        match s' with
        | String c' s'' =>
            if Ascii.eqb c CR && Ascii.eqb c' LF then EmptyString :: splitLines s''
            else consHead c (splitLines s')
        | EmptyString => consHead c (splitLines s')
        end
  end.

(** The loop of [parseCSV] over the lines. *)
Fixpoint parseLines (lines : list string) (rows : list (list string)) : list (list string) :=
  match lines with
  | [] => rows
  | line :: lines' =>
      if (Str.trim line =? "")%string then parseLines lines' rows (* continue *)
      else
        (* Simple CSV split by comma, no support for quoted commas *)
        let cols := map Str.trim (Str.split "," line) in
        parseLines lines' (rows ++ [cols])
  end.

Definition parseCSV (csvText : string) : list (list string) :=
  let lines := splitLines csvText in
  parseLines lines [].

(** Whether a character occurs in a string. *)
Fixpoint occurs (c : ascii) (s : string) : bool :=
  match s with
  | EmptyString => false
  | String c' s' => Ascii.eqb c' c || occurs c s'
  end.

(** Puts a text in front of the first line, and after the last one. *)
Definition addPrefix (p : string) (lines : list string) : list string :=
  match lines with
  | first :: others => (p ++ first) :: others
  | [] => [p]
  end.

Fixpoint addSuffix (x : string) (lines : list string) : list string :=
  match lines with
  | [] => []
  | [last] => [last ++ x]
  | line :: lines' => line :: addSuffix x lines'
  end.

(** The rows the first loop of [processData] does not skip. *)
Definition hasFourTokens (row : list string) : bool := (4 <=? List.length row)%nat.

(** Selections and sums used to state what the maps hold. *)
Definition sameTriple (e1 e2 p : Z) (c : Contribution) : bool :=
  (low c =? e1) && (high c =? e2) && (project c =? p).

Definition samePair (e1 e2 : Z) (c : Contribution) : bool :=
  (low c =? e1) && (high c =? e2).

Definition sumDays (cs : list Contribution) : Z :=
  fold_right (fun c acc => days c + acc) 0 cs.

Definition ofPair (e1 e2 : Z) (ppd : PairProjectDays) : bool :=
  (emp1 ppd =? e1) && (emp2 ppd =? e2).

Definition sumWorked (l : list PairProjectDays) : Z :=
  fold_right (fun ppd acc => totalDaysWorked ppd + acc) 0 l.

Definition ofPairTotal (e1 e2 : Z) (ptd : Total.PairTotalDays) : bool :=
  (Total.emp1 ptd =? e1) && (Total.emp2 ptd =? e2).

Definition sumTotals (l : list Total.PairTotalDays) : Z :=
  fold_right (fun ptd acc => Total.totalDaysWorked ptd + acc) 0 l.

(** What the two maps satisfy together after any number of steps of the
    loops over [records]: the entries are as [pairEntryOk] and
    [totalEntryOk] say, no key occurs twice, every total is at least one
    day, and the days of a pair in the first map add up to its days in the
    second. *)
Definition consistent (records : list EmployeeRecord) (maps : Maps) : Prop :=
  Forall (pairEntryOk records) (fst maps) /\
  Forall (totalEntryOk records) (snd maps) /\
  NoDup (map fst (fst maps)) /\
  NoDup (map fst (snd maps)) /\
  Forall (fun entry => 1 <= totalDaysWorked (snd entry)) (fst maps) /\
  Forall (fun entry => 1 <= Total.totalDaysWorked (snd entry)) (snd maps) /\
  forall e1 e2,
    sumWorked (filter (ofPair e1 e2) (JSMap.values (fst maps))) =
    sumTotals (filter (ofPairTotal e1 e2) (JSMap.values (snd maps))).

(** The shapes [dddd-dd-dd] and [dd-dd-dddd] and the tokens that have
    them, and the tokens that stand for today. *)
Definition isoShape : Regex.regex :=
  [Regex.Digits 4; Regex.Lit "-"; Regex.Digits 2; Regex.Lit "-"; Regex.Digits 2].

Definition dashShape : Regex.regex :=
  [Regex.Digits 2; Regex.Lit "-"; Regex.Digits 2; Regex.Lit "-"; Regex.Digits 4].

Definition isoToken (c0 c1 c2 c3 c5 c6 c8 c9 : ascii) : string :=
  fourChars c0 c1 c2 c3 ++ "-" ++ twoChars c5 c6 ++ "-" ++ twoChars c8 c9.

Definition dashToken (c0 c1 c3 c4 c6 c7 c8 c9 : ascii) : string :=
  twoChars c0 c1 ++ "-" ++ twoChars c3 c4 ++ "-" ++ fourChars c6 c7 c8 c9.

Definition todayToken (tok : string) : bool :=
  (tok =? "")%string || (Str.toLowerCase tok =? "null")%string.

(** Splits a goal about [Regex.test] on a text of unknown characters into
    the cases of its tests. *)
Ltac shape_cases :=
  repeat match goal with
         | |- context [if Str.isDigit ?c then _ else _] =>
             let E := fresh "D" in destruct (Str.isDigit c) eqn:E
         | |- context [Ascii.eqb ?c ?l] =>
             let E := fresh "L" in
             destruct (Ascii.eqb c l) eqn:E; cbn [andb]
         | |- false = true -> _ => discriminate
         end; try discriminate.

(** ** The page: reading a file and rendering

    [handleFileUpload] starts a [FileReader] and returns; the reader calls
    back later.  [Reading] is what it calls back with, and
    [handleFileUpload] below gives the state of the component once the
    callback has run. *)

Inductive Reading : Type :=
| NoFile                      (* no file was chosen: [if (!file) return] *)
| LoadedText (text : string)  (* [onload] with a string *)
| LoadedOther                 (* [onload] with a result that is not a string *)
| ReadError.                  (* [onerror] *)

Definition handleFileUpload (h : Host) (st : AppState) (r : Reading) : AppState :=
  match r with
  | NoFile => st
  | LoadedText text =>
      let data := parseCSV text in
      processData h {| pairs := pairs st; error := error st; fileUploaded := true |} data
  | LoadedOther =>
      {| pairs := pairs st; error := Some "Failed to read file content.";
         fileUploaded := true |}
  | ReadError =>
      {| pairs := pairs st; error := Some "Error reading file."; fileUploaded := true |}
  end.

(** The [key] of a table row. *)
Definition rowKey (pair : PairProjectDays) : string :=
  Str.ofNumber (emp1 pair) ++ "-" ++ Str.ofNumber (emp2 pair) ++ "-"
    ++ Str.ofNumber (projectId pair).

(** What is rendered under the file input: the error paragraph, and nothing,
    the table with its count, or the sentence "None Pairs Found!". *)
Inductive Body : Type :=
| Hidden
| NonePairs
| Table (count : nat) (rows : list (string * PairProjectDays)).

Record View : Type := {
  message : option string;
  body : Body
}.

Definition render (st : AppState) : View :=
  {| message :=
       match error st with
       | Some e => if (e =? "")%string then None else Some e
       | None => None
       end;
     body :=
       if fileUploaded st then
         if (0 <? List.length (pairs st))%nat
         then Table (List.length (pairs st)) (map (fun pair => (rowKey pair, pair)) (pairs st))
         else NonePairs
       else Hidden |}.

(** The host with another clock. *)
Definition withClock (h : Host) (now : nat -> Z) : Host :=
  {| Number := Number h;
     UTC := UTC h;
     Date_parse := Date_parse h;
     Date_now := now;
     Number_digits := Number_digits h;
     UTC_offset := UTC_offset h |}.

(** A row whose date tokens, if it has them, do not stand for today. *)
Definition datesGiven (row : list string) : bool :=
  match row with
  | _ :: _ :: r2 :: r3 :: _ => negb (todayToken r2) && negb (todayToken r3)
  | _ => true
  end.

(** * Properties *)

(** ** The maps *)

Section MapFacts.
Context {V : Type}.
Implicit Types (m : JSMap.t V) (key : string) (v : V).

Lemma get_set_same key v m : JSMap.get key (JSMap.set key v m) = Some v.
Proof.
  induction m as [|[k x] m IH]; simpl.
  - now rewrite String.eqb_refl.
  - destruct (k =? key)%string eqn:E; simpl; rewrite E; [reflexivity | exact IH].
Qed.

Lemma get_set_other key key' v m :
  key <> key' -> JSMap.get key' (JSMap.set key v m) = JSMap.get key' m.
Proof.
  intros Hne. induction m as [|[k x] m IH]; simpl.
  - apply String.eqb_neq in Hne. now rewrite Hne.
  - destruct (k =? key)%string eqn:E; simpl.
    + apply String.eqb_eq in E; subst k.
      apply String.eqb_neq in Hne. now rewrite Hne.
    + now rewrite IH.
Qed.

End MapFacts.

(** ** The loops and the contributions *)

Lemma start_is_max (a b : Z) : (if a >? b then a else b) = Z.max a b.
Proof. destruct (Z.gtb_spec a b); lia. Qed.

Lemma end_is_min (a b : Z) : (if a <? b then a else b) = Z.min a b.
Proof. destruct (Z.ltb_spec a b); lia. Qed.

Lemma differenceInDays_ordered (s e : Z) :
  s <= e -> differenceInDays e s = (e - s) / msPerDay.
Proof.
  intros H. unfold differenceInDays, msPerDay.
  (* the source takes |start - end| *)
  rewrite <- Z.abs_opp, Z.opp_sub_distr, Z.add_comm, Z.add_opp_r.
  now rewrite Z.abs_eq by lia.
Qed.

Lemma visit_contribution (p1 p2 : EmployeeRecord) (maps : Maps) :
  visit p1 p2 maps =
  match contribution p1 p2 with
  | Some c => addBoth maps c
  | None => maps
  end.
Proof.
  unfold visit, contribution. destruct maps as [pm pt].
  destruct ((ProjectID p1 =? ProjectID p2) && negb (EmpID p1 =? EmpID p2)); [|reflexivity].
  rewrite start_is_max, end_is_min.
  set (s := Z.max (DateFrom p1) (DateFrom p2)).
  set (e := Z.min (DateTo p1) (DateTo p2)).
  destruct (Z.leb_spec s e) as [Hle|Hlt].
  - replace (e >=? s) with true by (symmetry; apply Z.geb_le; lia).
    rewrite (differenceInDays_ordered s e Hle). reflexivity.
  - replace (e >=? s) with false; [reflexivity|].
    symmetry. rewrite Z.geb_leb. apply Z.leb_gt. lia.
Qed.

Lemma innerLoop_fold (p1 : EmployeeRecord) (rest : list EmployeeRecord) (maps : Maps) :
  innerLoop p1 rest maps =
  fold_left addBoth (flat_map (fun p2 => toList (contribution p1 p2)) rest) maps.
Proof.
  revert maps. induction rest as [|p2 rest IH]; intros maps; simpl; [reflexivity|].
  rewrite IH, visit_contribution, fold_left_app.
  destruct (contribution p1 p2); reflexivity.
Qed.

Lemma outerLoop_fold (records : list EmployeeRecord) (maps : Maps) :
  outerLoop records maps = fold_left addBoth (contributions records) maps.
Proof.
  revert maps. induction records as [|p1 rest IH]; intros maps; simpl; [reflexivity|].
  now rewrite IH, innerLoop_fold, fold_left_app.
Qed.

Lemma fold_addBoth_fst (cs : list Contribution) (maps : Maps) :
  fst (fold_left addBoth cs maps) = fold_left (fun m c => addPair c m) cs (fst maps).
Proof.
  revert maps. induction cs as [|c cs IH]; intros maps; simpl; [reflexivity|].
  now rewrite IH.
Qed.

Lemma fold_addBoth_snd (cs : list Contribution) (maps : Maps) :
  snd (fold_left addBoth cs maps) = fold_left (fun m c => addTotal c m) cs (snd maps).
Proof.
  revert maps. induction cs as [|c cs IH]; intros maps; simpl; [reflexivity|].
  now rewrite IH.
Qed.

Lemma get_addPair (key : string) (c : Contribution) (m : JSMap.t PairProjectDays) :
  option_map totalDaysWorked (JSMap.get key (addPair c m)) =
  if (pairKey c =? key)%string
  then Some (match option_map totalDaysWorked (JSMap.get key m) with
             | Some a => a
             | None => 0
             end + days c)
  else option_map totalDaysWorked (JSMap.get key m).
Proof.
  unfold addPair. destruct (pairKey c =? key)%string eqn:E.
  - apply String.eqb_eq in E. subst key.
    destruct (JSMap.get (pairKey c) m) as [existing|]; rewrite get_set_same; reflexivity.
  - apply String.eqb_neq in E.
    destruct (JSMap.get (pairKey c) m); now rewrite get_set_other.
Qed.

Lemma get_addTotal (key : string) (c : Contribution) (m : JSMap.t Total.PairTotalDays) :
  option_map Total.totalDaysWorked (JSMap.get key (addTotal c m)) =
  if (totalKey c =? key)%string
  then Some (match option_map Total.totalDaysWorked (JSMap.get key m) with
             | Some a => a
             | None => 0
             end + days c)
  else option_map Total.totalDaysWorked (JSMap.get key m).
Proof.
  unfold addTotal. destruct (totalKey c =? key)%string eqn:E.
  - apply String.eqb_eq in E. subst key.
    destruct (JSMap.get (totalKey c) m) as [existing|]; rewrite get_set_same; reflexivity.
  - apply String.eqb_neq in E.
    destruct (JSMap.get (totalKey c) m); now rewrite get_set_other.
Qed.

Lemma fold_addPair_tally (key : string) (cs : list Contribution) (m : JSMap.t PairProjectDays) :
  option_map totalDaysWorked (JSMap.get key (fold_left (fun m c => addPair c m) cs m)) =
  tally (fun c => (pairKey c =? key)%string) cs (option_map totalDaysWorked (JSMap.get key m)).
Proof.
  revert m. induction cs as [|c cs IH]; intros m; simpl; [reflexivity|].
  now rewrite IH, get_addPair.
Qed.

Lemma fold_addTotal_tally (key : string) (cs : list Contribution)
  (m : JSMap.t Total.PairTotalDays) :
  option_map Total.totalDaysWorked (JSMap.get key (fold_left (fun m c => addTotal c m) cs m)) =
  tally (fun c => (totalKey c =? key)%string) cs
        (option_map Total.totalDaysWorked (JSMap.get key m)).
Proof.
  revert m. induction cs as [|c cs IH]; intros m; simpl; [reflexivity|].
  now rewrite IH, get_addTotal.
Qed.

(** The total under a key after a run is the tally of the contributions of
    the batch. *)
Lemma pairMap_tally (records : list EmployeeRecord) (key : string) :
  option_map totalDaysWorked (JSMap.get key (fst (outerLoop records ([], [])))) =
  tally (fun c => (pairKey c =? key)%string) (contributions records) None.
Proof. now rewrite outerLoop_fold, fold_addBoth_fst, fold_addPair_tally. Qed.

Lemma pairMapTotal_tally (records : list EmployeeRecord) (key : string) :
  option_map Total.totalDaysWorked (JSMap.get key (snd (outerLoop records ([], [])))) =
  tally (fun c => (totalKey c =? key)%string) (contributions records) None.
Proof. now rewrite outerLoop_fold, fold_addBoth_snd, fold_addTotal_tally. Qed.

(** ** Order of the records *)

Lemma tally_Permutation (sel : Contribution -> bool) (cs cs' : list Contribution) :
  Permutation cs cs' -> forall init, tally sel cs init = tally sel cs' init.
Proof.
  unfold tally.
  induction 1 as [|c l l' _ IH|c d l|l l' l'' _ IH1 _ IH2]; intros init; simpl.
  - reflexivity.
  - apply IH.
  - f_equal. destruct (sel c), (sel d), init; try reflexivity; f_equal; lia.
  - now rewrite IH1.
Qed.

Lemma contribution_sym (p1 p2 : EmployeeRecord) : contribution p1 p2 = contribution p2 p1.
Proof.
  unfold contribution.
  rewrite (Z.eqb_sym (ProjectID p1)), (Z.eqb_sym (EmpID p1)).
  destruct (Z.eqb_spec (ProjectID p2) (ProjectID p1)) as [Hp|]; [|reflexivity].
  rewrite (Z.max_comm (DateFrom p1)), (Z.min_comm (DateTo p1)).
  rewrite (Z.max_comm (EmpID p1)), (Z.min_comm (EmpID p1)), Hp.
  reflexivity.
Qed.

Lemma contributions_Permutation (records records' : list EmployeeRecord) :
  Permutation records records' ->
  Permutation (contributions records) (contributions records').
Proof.
  induction 1 as [|p l l' Hl IH|p q l|l l' l'' _ IH1 _ IH2]; simpl.
  - constructor.
  - apply Permutation_app; [|exact IH].
    now apply Permutation_flat_map.
  - rewrite (contribution_sym q p), <- !app_assoc.
    apply Permutation_app_head.
    rewrite !app_assoc. apply Permutation_app_tail, Permutation_app_comm.
  - now transitivity (contributions l').
Qed.

(** ** Canonical pairs *)

Section EntryFacts.
Context {V : Type}.

Lemma get_In_entry (key : string) (v : V) (m : JSMap.t V) :
  JSMap.get key m = Some v -> In (key, v) m.
Proof.
  induction m as [|[k x] m IH]; simpl; [discriminate|].
  destruct (k =? key)%string eqn:E; intros H.
  - apply String.eqb_eq in E. left. congruence.
  - right. auto.
Qed.

Lemma Forall_set (P : string * V -> Prop) (key : string) (v : V) (m : JSMap.t V) :
  P (key, v) -> Forall P m -> Forall P (JSMap.set key v m).
Proof.
  intros Hv. induction m as [|[k x] m IH]; simpl; intros H.
  - constructor; [exact Hv | constructor].
  - inversion H; subst.
    destruct (k =? key)%string eqn:E; constructor; auto.
    apply String.eqb_eq in E. now subst k.
Qed.

End EntryFacts.

Lemma canonical_cons (p : EmployeeRecord) (records : list EmployeeRecord) (e1 e2 : Z) :
  canonical records e1 e2 -> canonical (p :: records) e1 e2.
Proof.
  intros [Hlt (p1 & p2 & H1 & H2 & Hmin & Hmax)].
  split; [exact Hlt|]. exists p1, p2. simpl. auto.
Qed.

Lemma contribution_canonical (p1 p2 : EmployeeRecord) (c : Contribution) :
  contribution p1 p2 = Some c ->
  low c < high c /\ low c = Z.min (EmpID p1) (EmpID p2) /\ high c = Z.max (EmpID p1) (EmpID p2).
Proof.
  unfold contribution.
  destruct (Z.eqb_spec (ProjectID p1) (ProjectID p2)); simpl; [|discriminate].
  destruct (Z.eqb_spec (EmpID p1) (EmpID p2)); simpl; [discriminate|].
  destruct (_ <=? _); [|discriminate].
  intros H; injection H as <-; simpl. lia.
Qed.

Lemma contributions_canonical (records : list EmployeeRecord) :
  Forall (fun c => canonical records (low c) (high c)) (contributions records).
Proof.
  induction records as [|p1 rest IH]; simpl; [constructor|].
  apply Forall_app; split.
  - apply Forall_forall. intros c Hc.
    apply in_flat_map in Hc. destruct Hc as (p2 & Hp2 & Hc).
    destruct (contribution p1 p2) as [c'|] eqn:E; simpl in Hc; [|contradiction].
    destruct Hc as [->|[]].
    destruct (contribution_canonical _ _ _ E) as (Hlt & Hlow & Hhigh).
    split; [exact Hlt|]. exists p1, p2. simpl. auto.
  - eapply Forall_impl; [|exact IH]. intros c. apply canonical_cons.
Qed.

Lemma fold_addPair_entries (records : list EmployeeRecord) (cs : list Contribution) :
  Forall (fun c => canonical records (low c) (high c)) cs ->
  forall m, Forall (pairEntryOk records) m ->
            Forall (pairEntryOk records) (fold_left (fun m c => addPair c m) cs m).
Proof.
  induction 1 as [|c cs Hc _ IH]; intros m Hm; simpl; [exact Hm|].
  apply IH. unfold addPair.
  destruct (JSMap.get (pairKey c) m) as [existing|] eqn:E.
  - apply Forall_set; [|exact Hm].
    apply get_In_entry in E.
    rewrite Forall_forall in Hm. exact (Hm _ E).
  - apply Forall_set; [|exact Hm]. split; [reflexivity | exact Hc].
Qed.

Lemma fold_addTotal_entries (records : list EmployeeRecord) (cs : list Contribution) :
  Forall (fun c => canonical records (low c) (high c)) cs ->
  forall m, Forall (totalEntryOk records) m ->
            Forall (totalEntryOk records) (fold_left (fun m c => addTotal c m) cs m).
Proof.
  induction 1 as [|c cs Hc _ IH]; intros m Hm; simpl; [exact Hm|].
  apply IH. unfold addTotal.
  destruct (JSMap.get (totalKey c) m) as [existing|] eqn:E.
  - apply Forall_set; [|exact Hm].
    apply get_In_entry in E.
    rewrite Forall_forall in Hm. exact (Hm _ E).
  - apply Forall_set; [|exact Hm]. split; [reflexivity | exact Hc].
Qed.

(** ** The earlier revision *)

Lemma readProjects_readRecords (h : Host) (data : list (list string)) :
  forall k records, Part000.readProjects h k data records = readRecords h k data records.
Proof.
  induction data as [|row data IH]; intros k records; simpl; [reflexivity|].
  destruct row as [|r0 [|r1 [|r2 [|r3 tl]]]]; try apply IH.
  destruct (parseDate h k r2) as [DateFrom k1].
  destruct (parseDate h k1 r3) as [DateTo k2].
  destruct (Number h r0), (Number h r1), DateFrom, DateTo; try reflexivity; apply IH.
Qed.

Lemma Part000_visit_fst (p1 p2 : EmployeeRecord) (maps : Maps) :
  Part000.visit p1 p2 (fst maps) = fst (visit p1 p2 maps).
Proof.
  unfold Part000.visit, visit. destruct maps as [pm pt]; simpl.
  destruct ((ProjectID p1 =? ProjectID p2) && negb (EmpID p1 =? EmpID p2)); [|reflexivity].
  destruct (_ >=? _); reflexivity.
Qed.

Lemma Part000_innerLoop_fst (p1 : EmployeeRecord) (rest : list EmployeeRecord) :
  forall maps, Part000.innerLoop p1 rest (fst maps) = fst (innerLoop p1 rest maps).
Proof.
  induction rest as [|p2 rest IH]; intros maps; simpl; [reflexivity|].
  now rewrite Part000_visit_fst, IH.
Qed.

Lemma Part000_outerLoop_fst (records : list EmployeeRecord) :
  forall maps, Part000.outerLoop records (fst maps) = fst (outerLoop records maps).
Proof.
  induction records as [|p1 rest IH]; intros maps; simpl; [reflexivity|].
  now rewrite Part000_innerLoop_fst, IH.
Qed.

Lemma Part000_processData (h : Host) (st : AppState) (data : list (list string)) :
  Part000.processData h st data =
  match readRecords h 0 data [] with
  | None => {| pairs := pairs st; error := Some invalidData; fileUploaded := false |}
  | Some records =>
      {| pairs := JSMap.values (fst (outerLoop records ([], [])));
         error := None;
         fileUploaded := fileUploaded st |}
  end.
Proof.
  unfold Part000.processData.
  rewrite (readProjects_readRecords h data 0 []).
  destruct (readRecords h 0 data []) as [records|]; [|reflexivity].
  now rewrite <- (Part000_outerLoop_fst records ([], [])).
Qed.

(** ** The example *)

Example sample_records :
  readRecords RefHost.host 0 Sample.rows [] = Some Sample.records.
Proof. reflexivity. Qed.

Example sample_result :
  pairs (processData RefHost.host Sample.initial Sample.rows) =
  [{| emp1 := 1; emp2 := 2; projectId := 1; totalDaysWorked := 6 |}].
Proof. reflexivity. Qed.

Example sample_all_pairs :
  pairs (Part000.processData RefHost.host Sample.initial Sample.rows) =
  [{| emp1 := 1; emp2 := 2; projectId := 1; totalDaysWorked := 6 |};
   {| emp1 := 1; emp2 := 3; projectId := 2; totalDaysWorked := 3 |}].
Proof. reflexivity. Qed.

(** ** Overlap of two assignments *)

(** The arithmetic of the loop body on the time values of two records of
    the same project with distinct employees: with [start] the later first
    time value and [end_] the earlier last one, it adds
    [differenceInDays(end, start) + 1], the whole multiples of 86400000 ms
    from [start] to [end_] plus one, under the key of the pair when
    [start <= end_], and nothing when [end_ < start]. *)
Theorem overlap_days (p1 p2 : EmployeeRecord) :
  ProjectID p1 = ProjectID p2 -> EmpID p1 <> EmpID p2 ->
  let start := Z.max (DateFrom p1) (DateFrom p2) in
  let end_ := Z.min (DateTo p1) (DateTo p2) in
  let lo := Z.min (EmpID p1) (EmpID p2) in
  let hi := Z.max (EmpID p1) (EmpID p2) in
  let key := Str.ofNumber lo ++ "-" ++ Str.ofNumber hi ++ "-" ++ Str.ofNumber (ProjectID p1) in
  let keyTotal := Str.ofNumber lo ++ "-" ++ Str.ofNumber hi in
  (start <= end_ ->
   let n := (end_ - start) / msPerDay + 1 in
   n = differenceInDays end_ start + 1 /\
   outerLoop [p1; p2] ([], []) =
     ([(key, {| emp1 := lo; emp2 := hi; projectId := ProjectID p1; totalDaysWorked := n |})],
      [(keyTotal, {| Total.emp1 := lo; Total.emp2 := hi; Total.totalDaysWorked := n |})]) /\
   forall maps,
     option_map totalDaysWorked (JSMap.get key (fst (visit p1 p2 maps))) =
       Some (match option_map totalDaysWorked (JSMap.get key (fst maps)) with
             | Some a => a
             | None => 0
             end + n) /\
     option_map Total.totalDaysWorked (JSMap.get keyTotal (snd (visit p1 p2 maps))) =
       Some (match option_map Total.totalDaysWorked (JSMap.get keyTotal (snd maps)) with
             | Some a => a
             | None => 0
             end + n)) /\
  (end_ < start ->
   outerLoop [p1; p2] ([], []) = ([], []) /\
   forall maps, visit p1 p2 maps = maps).
Proof.
  intros Hp He start end_ lo hi key keyTotal.
  assert (Hc : contribution p1 p2 =
               if start <=? end_
               then Some {| low := lo; high := hi; project := ProjectID p1;
                            days := (end_ - start) / msPerDay + 1 |}
               else None).
  { unfold contribution. rewrite Hp, Z.eqb_refl.
    apply Z.eqb_neq in He. rewrite He. reflexivity. }
  split.
  - intros Hle n.
    assert (Hle' : (start <=? end_) = true) by (apply Z.leb_le; exact Hle).
    rewrite Hle' in Hc.
    split; [now rewrite differenceInDays_ordered|].
    split.
    + change (outerLoop [p1; p2] ([], [])) with (visit p1 p2 ([], [])).
      rewrite visit_contribution, Hc. reflexivity.
    + intros maps. rewrite visit_contribution, Hc. simpl.
      rewrite get_addPair, get_addTotal.
      unfold pairKey, totalKey; simpl.
      fold key keyTotal. now rewrite !String.eqb_refl.
  - intros Hlt.
    assert (Hlt' : (start <=? end_) = false) by (apply Z.leb_gt; exact Hlt).
    rewrite Hlt' in Hc.
    split; [change (outerLoop [p1; p2] ([], [])) with (visit p1 p2 ([], []))|intros maps];
      now rewrite visit_contribution, Hc.
Qed.

Lemma overlap_days_witness :
  ProjectID Sample.e1p1 = ProjectID Sample.e2p1 /\
  EmpID Sample.e1p1 <> EmpID Sample.e2p1 /\
  Z.max (DateFrom Sample.e1p1) (DateFrom Sample.e2p1)
    <= Z.min (DateTo Sample.e1p1) (DateTo Sample.e2p1) /\
  outerLoop [Sample.e1p1; Sample.e2p1] ([], []) =
    ([("1-2-1", {| emp1 := 1; emp2 := 2; projectId := 1; totalDaysWorked := 6 |})],
     [("1-2", {| Total.emp1 := 1; Total.emp2 := 2; Total.totalDaysWorked := 6 |})]).
Proof.
  assert (Hp : ProjectID Sample.e1p1 = ProjectID Sample.e2p1) by reflexivity.
  assert (He : EmpID Sample.e1p1 <> EmpID Sample.e2p1) by (vm_compute; discriminate).
  assert (Hle : Z.max (DateFrom Sample.e1p1) (DateFrom Sample.e2p1)
                <= Z.min (DateTo Sample.e1p1) (DateTo Sample.e2p1))
    by (vm_compute; discriminate).
  split; [exact Hp|]. split; [exact He|]. split; [exact Hle|].
  exact (proj1 (proj2 (proj1 (overlap_days Sample.e1p1 Sample.e2p1 Hp He) Hle))).
Defined.

(** C1.  Where the clocks change, the overlap that [processData] computes is
    not the number of days of the common period.  Two employees are on one
    project from 9 to 11 March 2024, three days with both ends counted.  On
    the host with daylight saving time the midnights of 9 and 11 March are
    47 hours apart, [differenceInDays] gives 1 and the row says 2 days; on
    the host in UTC the same batch gives 3.  Likewise 1 February to 30 April
    2024, ninety days, gives 89. *)
Theorem overlap_days_lost_at_clock_change :
  JSDate.MakeDay 2024 2 11 - JSDate.MakeDay 2024 2 9 + 1 = 3 /\
  readRecords DstHost.host 0 Sample.marchRows [] =
    Some [ {| EmpID := 1; ProjectID := 1;
              DateFrom := Sample.day 2024 3 9 + 5 * DstHost.hour;
              DateTo := Sample.day 2024 3 11 + 4 * DstHost.hour |};
           {| EmpID := 2; ProjectID := 1;
              DateFrom := Sample.day 2024 3 9 + 5 * DstHost.hour;
              DateTo := Sample.day 2024 3 11 + 4 * DstHost.hour |} ] /\
  differenceInDays (Sample.day 2024 3 11 + 4 * DstHost.hour)
                   (Sample.day 2024 3 9 + 5 * DstHost.hour) = 1 /\
  pairs (processData DstHost.host Sample.initial Sample.marchRows) =
    [{| emp1 := 1; emp2 := 2; projectId := 1; totalDaysWorked := 2 |}] /\
  pairs (processData RefHost.host Sample.initial Sample.marchRows) =
    [{| emp1 := 1; emp2 := 2; projectId := 1; totalDaysWorked := 3 |}] /\
  JSDate.MakeDay 2024 3 30 - JSDate.MakeDay 2024 1 1 + 1 = 90 /\
  pairs (processData DstHost.host Sample.initial Sample.springRows) =
    [{| emp1 := 1; emp2 := 2; projectId := 1; totalDaysWorked := 89 |}] /\
  pairs (processData RefHost.host Sample.initial Sample.springRows) =
    [{| emp1 := 1; emp2 := 2; projectId := 1; totalDaysWorked := 90 |}].
Proof.
  split; [reflexivity|].
  split; [reflexivity|].
  split; [reflexivity|].
  split; [reflexivity|].
  split; [reflexivity|].
  split; [reflexivity|].
  split; reflexivity.
Qed.

(** ** Order of the input *)

(** C7.  Permuting the records of a batch changes no aggregated
    [totalDaysWorked]: under every key, the map per pair and project and the
    map per pair hold the same total (or no entry) for both orders. *)
Theorem totals_permutation_invariant (records records' : list EmployeeRecord) :
  Permutation records records' ->
  forall key,
    option_map totalDaysWorked (JSMap.get key (fst (outerLoop records ([], [])))) =
    option_map totalDaysWorked (JSMap.get key (fst (outerLoop records' ([], [])))) /\
    option_map Total.totalDaysWorked (JSMap.get key (snd (outerLoop records ([], [])))) =
    option_map Total.totalDaysWorked (JSMap.get key (snd (outerLoop records' ([], [])))).
Proof.
  intros Hperm key.
  apply contributions_Permutation in Hperm.
  rewrite !pairMap_tally, !pairMapTotal_tally.
  split; now apply tally_Permutation.
Qed.

Lemma totals_permutation_invariant_witness :
  Permutation Sample.records (rev Sample.records) /\
  option_map totalDaysWorked
    (JSMap.get "1-2-1" (fst (outerLoop (rev Sample.records) ([], [])))) = Some 6 /\
  option_map Total.totalDaysWorked
    (JSMap.get "1-3" (snd (outerLoop (rev Sample.records) ([], [])))) = Some 3.
Proof.
  assert (Hperm : Permutation Sample.records (rev Sample.records))
    by apply Permutation_rev.
  split; [exact Hperm|].
  split.
  - rewrite <- (proj1 (totals_permutation_invariant _ _ Hperm "1-2-1")). reflexivity.
  - rewrite <- (proj2 (totals_permutation_invariant _ _ Hperm "1-3")). reflexivity.
Defined.

(** ** Canonical order of a pair *)

(** C8.  Every entry of the two maps holds a pair [emp1 < emp2], the smaller
    and the larger identifier of two records of the batch, under the key
    written from that pair; the loop body treats [p1, p2] as it treats
    [p2, p1]; and exchanging two records of a batch leaves the total under
    every key as it was. *)
Theorem canonical_pairs (records : list EmployeeRecord) :
  Forall (pairEntryOk records) (fst (outerLoop records ([], []))) /\
  Forall (totalEntryOk records) (snd (outerLoop records ([], []))) /\
  (forall p1 p2 maps, visit p1 p2 maps = visit p2 p1 maps) /\
  (forall (before between after : list EmployeeRecord) (p q : EmployeeRecord) (key : string),
     let l := (before ++ p :: between ++ q :: after)%list in
     let l' := (before ++ q :: between ++ p :: after)%list in
     option_map totalDaysWorked (JSMap.get key (fst (outerLoop l ([], [])))) =
     option_map totalDaysWorked (JSMap.get key (fst (outerLoop l' ([], [])))) /\
     option_map Total.totalDaysWorked (JSMap.get key (snd (outerLoop l ([], [])))) =
     option_map Total.totalDaysWorked (JSMap.get key (snd (outerLoop l' ([], []))))).
Proof.
  split; [|split; [|split]].
  - rewrite outerLoop_fold, fold_addBoth_fst.
    apply fold_addPair_entries; [apply contributions_canonical | constructor].
  - rewrite outerLoop_fold, fold_addBoth_snd.
    apply fold_addTotal_entries; [apply contributions_canonical | constructor].
  - intros p1 p2 maps. now rewrite !visit_contribution, contribution_sym.
  - intros before between after p q key l l'.
    assert (Hperm : Permutation (contributions l) (contributions l')).
    { apply contributions_Permutation. unfold l, l'.
      apply Permutation_app_head.
      transitivity (p :: q :: between ++ after)%list.
      { apply perm_skip. symmetry. apply Permutation_middle. }
      transitivity (q :: p :: between ++ after)%list; [apply perm_swap|].
      apply perm_skip, Permutation_middle. }
    rewrite !pairMap_tally, !pairMapTotal_tally.
    split; now apply tally_Permutation.
Qed.

(** ** The two revisions *)

(** C10.  On every batch the two revisions of [processData] validate alike
    (the same records or the same rejection) and build the same map per pair
    and project; the earlier revision shows all of it, the later one the
    selection made from it. *)
Theorem pairMap_same_as_part_000 (h : Host) (st : AppState) (data : list (list string)) :
  Part000.readProjects h 0 data [] = readRecords h 0 data [] /\
  (forall records, Part000.outerLoop records [] = fst (outerLoop records ([], []))) /\
  match readRecords h 0 data [] with
  | None =>
      Part000.processData h st data = processData h st data /\
      error (processData h st data) = Some invalidData
  | Some records =>
      let maps := outerLoop records ([], []) in
      pairs (Part000.processData h st data) = JSMap.values (fst maps) /\
      pairs (processData h st data) = selectTop (fst maps) (snd maps) /\
      error (Part000.processData h st data) = error (processData h st data) /\
      fileUploaded (Part000.processData h st data) = fileUploaded (processData h st data)
  end.
Proof.
  assert (Hloop : forall records,
             Part000.outerLoop records [] = fst (outerLoop records ([], [])))
    by (intros records; exact (Part000_outerLoop_fst records ([], []))).
  split; [apply readProjects_readRecords|].
  split; [exact Hloop|].
  rewrite Part000_processData. unfold processData.
  destruct (readRecords h 0 data []) as [records|].
  - destruct (outerLoop records ([], [])) as [pairMap pairMapTotal].
    simpl. auto.
  - split; reflexivity.
Qed.

(** ** Selection of the top pairs *)

Lemma MathMax_from (xs : list Z) (a : Z) :
  exists m,
    fold_left (fun acc x => match acc with
                            | None => Some x
                            | Some b => Some (Z.max b x)
                            end) xs (Some a) = Some m /\
    (m = a \/ In m xs) /\ a <= m /\ Forall (fun x => x <= m) xs.
Proof.
  revert a. induction xs as [|x xs IH]; intros a; simpl.
  - exists a. repeat split; auto; lia.
  - destruct (IH (Z.max a x)) as (m & Hm & Hin & Hle & Hall).
    exists m. split; [exact Hm|]. split; [|split].
    + destruct Hin as [->|Hin]; [|now right; right].
      destruct (Z.max_spec a x) as [[_ ->]|[_ ->]]; auto.
    + lia.
    + constructor; [lia | exact Hall].
Qed.

Lemma MathMax_nonempty (xs : list Z) :
  xs <> [] -> exists m, MathMax xs = Some m /\ In m xs /\ Forall (fun x => x <= m) xs.
Proof.
  destruct xs as [|x xs]; [congruence|]. intros _.
  destruct (MathMax_from xs x) as (m & Hm & Hin & Hle & Hall).
  exists m. split; [exact Hm|]. split.
  - destruct Hin as [->|Hin]; [now left | now right].
  - constructor; assumption.
Qed.

Lemma existsb_filter {A : Type} (f g : A -> bool) (l : list A) :
  existsb f (filter g l) = existsb (fun x => g x && f x) l.
Proof.
  induction l as [|x l IH]; simpl; [reflexivity|].
  destruct (g x); simpl; now rewrite IH.
Qed.

(** C2.  With no total the selection is empty.  Otherwise there is a
    greatest total, and the selection is the list of the entries per pair
    and project, in their order, whose pair [(emp1, emp2)] is the pair of a
    total equal to it: every pair tied at the maximum is kept, and no
    other. *)
Theorem selectTop_ties (pairMap : JSMap.t PairProjectDays)
  (pairMapTotal : JSMap.t Total.PairTotalDays) :
  (pairMapTotal = [] -> selectTop pairMap pairMapTotal = []) /\
  (pairMapTotal <> [] ->
   exists maxTotal,
     (exists ptd, In ptd (JSMap.values pairMapTotal) /\ Total.totalDaysWorked ptd = maxTotal) /\
     (forall ptd, In ptd (JSMap.values pairMapTotal) -> Total.totalDaysWorked ptd <= maxTotal) /\
     (forall ppd,
        In ppd (selectTop pairMap pairMapTotal) <->
        In ppd (JSMap.values pairMap) /\
        exists ptd, In ptd (JSMap.values pairMapTotal) /\
                    Total.totalDaysWorked ptd = maxTotal /\
                    Total.emp1 ptd = emp1 ppd /\ Total.emp2 ptd = emp2 ppd) /\
     selectTop pairMap pairMapTotal =
       filter (fun ppd =>
                 existsb (fun ptd => (Total.totalDaysWorked ptd =? maxTotal)
                                     && (Total.emp1 ptd =? emp1 ppd)
                                     && (Total.emp2 ptd =? emp2 ppd))
                         (JSMap.values pairMapTotal))
              (JSMap.values pairMap)).
Proof.
  split.
  - intros ->. unfold selectTop. simpl.
    induction (JSMap.values pairMap) as [|ppd l IH]; [reflexivity | exact IH].
  - intros Hne. unfold selectTop.
    set (totals := JSMap.values pairMapTotal).
    assert (Hne' : map (fun member => Total.totalDaysWorked member) totals <> []).
    { unfold totals, JSMap.values. destruct pairMapTotal; [congruence | discriminate]. }
    destruct (MathMax_nonempty _ Hne') as (m & Hm & Hin & Hall).
    rewrite Hm. exists m.
    assert (Hsel : forall ppd,
               existsb (fun ptd => (Total.emp1 ptd =? emp1 ppd) && (Total.emp2 ptd =? emp2 ppd))
                       (filter (fun member => strictEq (Total.totalDaysWorked member) (Some m))
                               totals) =
               existsb (fun ptd => (Total.totalDaysWorked ptd =? m)
                                   && (Total.emp1 ptd =? emp1 ppd)
                                   && (Total.emp2 ptd =? emp2 ppd)) totals).
    { intros ppd. rewrite existsb_filter. clear.
      induction totals as [|ptd l IH]; cbn [existsb]; [reflexivity|].
      rewrite IH. unfold strictEq. now rewrite andb_assoc. }
    split; [|split; [|split]].
    + apply in_map_iff in Hin. destruct Hin as (ptd & Hptd & Hin). eauto.
    + intros ptd Hptd. rewrite Forall_forall in Hall.
      apply Hall. now apply in_map.
    + intros ppd. rewrite filter_In, Hsel, existsb_exists.
      split; intros [Hin' (ptd & Hptd & Heq)]; (split; [exact Hin'|]); exists ptd.
      * apply andb_prop in Heq. destruct Heq as [Heq H2].
        apply andb_prop in Heq. destruct Heq as [H0 H1].
        apply Z.eqb_eq in H0, H1, H2. auto.
      * destruct Heq as (H0 & H1 & H2). split; [exact Hptd|].
        rewrite H0, H1, H2, !Z.eqb_refl. reflexivity.
    + apply filter_ext. exact Hsel.
Qed.

Lemma selectTop_ties_witness :
  Sample.tiedPairMapTotal <> [] /\
  selectTop [] Sample.tiedPairMapTotal = [] /\
  exists maxTotal,
    (forall ptd, In ptd (JSMap.values Sample.tiedPairMapTotal) ->
                 Total.totalDaysWorked ptd <= maxTotal) /\
    selectTop Sample.tiedPairMap Sample.tiedPairMapTotal =
      filter (fun ppd =>
                existsb (fun ptd => (Total.totalDaysWorked ptd =? maxTotal)
                                    && (Total.emp1 ptd =? emp1 ppd)
                                    && (Total.emp2 ptd =? emp2 ppd))
                        (JSMap.values Sample.tiedPairMapTotal))
             (JSMap.values Sample.tiedPairMap).
Proof.
  assert (Hne : Sample.tiedPairMapTotal <> []) by (vm_compute; discriminate).
  split; [exact Hne|].
  split; [reflexivity|].
  destruct (proj2 (selectTop_ties Sample.tiedPairMap Sample.tiedPairMapTotal) Hne)
    as (maxTotal & _ & Hmax & _ & Hsel).
  exists maxTotal. split; [exact Hmax | exact Hsel].
Defined.

Example selectTop_tied_sample :
  map (fun ppd => (emp1 ppd, emp2 ppd, projectId ppd))
      (selectTop Sample.tiedPairMap Sample.tiedPairMapTotal) =
  [(1, 2, 1); (3, 4, 1); (3, 4, 2)].
Proof. reflexivity. Qed.

(** ** Validation of the rows *)

Lemma parseDate_null (h : Host) (k k' : nat) (tok : string) :
  fst (parseDate h k tok) = None -> fst (parseDate h k' tok) = None.
Proof.
  unfold parseDate, parseDateWith.
  destruct ((tok =? "")%string || (Str.toLowerCase tok =? "null")%string);
    [discriminate|].
  destruct (tryPatterns h datePatterns (Str.trim tok)); [discriminate|].
  trivial.
Qed.

Lemma isNaN_true (x : option Z) : isNaN x = true -> x = None.
Proof. destruct x; [discriminate | reflexivity]. Qed.

(** A malformed row stops the first loop wherever it stands. *)
Lemma readRecords_malformed (h : Host) (data : list (list string)) :
  existsb (malformedRow h) data = true ->
  forall k records, readRecords h k data records = None.
Proof.
  induction data as [|row data IH]; simpl; [discriminate|].
  intros H k records.
  destruct row as [|r0 [|r1 [|r2 [|r3 tl]]]]; simpl in H; try (now apply IH).
  destruct (parseDate h k r2) as [DateFrom k1] eqn:E2.
  destruct (parseDate h k1 r3) as [DateTo k2] eqn:E3.
  destruct (Number h r0) as [e|] eqn:E0; [|reflexivity].
  destruct (Number h r1) as [p|] eqn:E1; [|reflexivity].
  destruct DateFrom as [f|]; [|reflexivity].
  destruct DateTo as [t|]; [|reflexivity].
  simpl in H.
  destruct (isNaN (fst (parseDate h 0 r2))) eqn:N2.
  { apply isNaN_true in N2. apply (parseDate_null h 0 k) in N2.
    rewrite E2 in N2. discriminate. }
  destruct (isNaN (fst (parseDate h 0 r3))) eqn:N3.
  { apply isNaN_true in N3. apply (parseDate_null h 0 k1) in N3.
    rewrite E3 in N3. discriminate. }
  now apply IH.
Qed.

Lemma processData_malformed (h : Host) (st : AppState) (data : list (list string)) :
  existsb (malformedRow h) data = true ->
  processData h st data =
    {| pairs := pairs st; error := Some invalidData; fileUploaded := false |}.
Proof.
  intros H. unfold processData.
  now rewrite (readRecords_malformed h data H 0 []).
Qed.

(** C3.  A batch with a row of at least four tokens whose employee or
    project token is not a number, or one of whose date tokens does not
    normalise, ends with the error set and nothing computed: [setPairs] is
    not reached, the upload flag is cleared, and no row is rendered. *)
Theorem malformed_row_rejects_batch (h : Host) (st : AppState) (data : list (list string)) :
  existsb (malformedRow h) data = true ->
  processData h st data =
    {| pairs := pairs st; error := Some invalidData; fileUploaded := false |} /\
  renderedRows (processData h st data) = [].
Proof.
  intros H. rewrite (processData_malformed h st data H). split; reflexivity.
Qed.

Lemma malformed_row_rejects_batch_witness :
  existsb (malformedRow RefHost.host) Sample.badRows = true /\
  processData RefHost.host Sample.initial Sample.badRows =
    {| pairs := []; error := Some invalidData; fileUploaded := false |} /\
  renderedRows (processData RefHost.host Sample.initial Sample.badRows) = [].
Proof.
  assert (H : existsb (malformedRow RefHost.host) Sample.badRows = true) by reflexivity.
  split; [exact H|].
  exact (malformed_row_rejects_batch RefHost.host Sample.initial Sample.badRows H).
Defined.

(** C6.  A row of at least four tokens whose token 0 or token 1 is not a
    number stops the validation with the error set, wherever the row stands
    in the batch; when both tokens are numbers (and both dates normalise)
    the row becomes a record with these numbers as [EmpID] and
    [ProjectID]. *)
Theorem identifiers_validated (h : Host) (r0 r1 r2 r3 : string) (tl : list string) :
  let row := r0 :: r1 :: r2 :: r3 :: tl in
  (Number h r0 = None \/ Number h r1 = None ->
   (forall k data records, readRecords h k (row :: data) records = None) /\
   (forall st before after,
      processData h st (before ++ row :: after) =
        {| pairs := pairs st; error := Some invalidData; fileUploaded := false |})) /\
  (forall e p f t k k1 k2 data records,
     Number h r0 = Some e -> Number h r1 = Some p ->
     parseDate h k r2 = (Some f, k1) -> parseDate h k1 r3 = (Some t, k2) ->
     readRecords h k (row :: data) records =
     readRecords h k2 data
       (records ++ [{| EmpID := e; ProjectID := p; DateFrom := f; DateTo := t |}])).
Proof.
  intros row. split.
  - intros Hnan.
    assert (Hbad : malformedRow h row = true).
    { unfold row; simpl. destruct Hnan as [-> | ->]; simpl; [reflexivity|].
      now rewrite orb_true_r. }
    split.
    + intros k data records. apply readRecords_malformed.
      cbn [existsb]. now rewrite Hbad.
    + intros st before after.
      apply processData_malformed.
      rewrite existsb_app. cbn [existsb]. rewrite Hbad. now rewrite orb_true_r.
  - intros e p f t k k1 k2 data records H0 H1 H2 H3. unfold row. simpl.
    now rewrite H2, H3, H0, H1.
Qed.

Lemma identifiers_validated_witness :
  (Number RefHost.host "x" = None /\
   processData RefHost.host Sample.initial
     ([["1"; "1"; "2024-01-01"; "2024-01-10"]]
        ++ ["x"; "1"; "2024-01-05"; "2024-01-15"] :: [])%list =
     {| pairs := []; error := Some invalidData; fileUploaded := false |}) /\
  (Number RefHost.host "7" = Some 7 /\ Number RefHost.host "3" = Some 3 /\
   readRecords RefHost.host 0 [["7"; "3"; "2024-01-01"; "2024-01-10"]] [] =
     Some [{| EmpID := 7; ProjectID := 3;
              DateFrom := Sample.day 2024 1 1; DateTo := Sample.day 2024 1 10 |}]).
Proof.
  split.
  - assert (H : Number RefHost.host "x" = None) by reflexivity.
    split; [exact H|].
    exact (proj2 (proj1 (identifiers_validated RefHost.host "x" "1" "2024-01-05"
                           "2024-01-15" []) (or_introl H))
             Sample.initial [["1"; "1"; "2024-01-01"; "2024-01-10"]] []).
  - assert (H0 : Number RefHost.host "7" = Some 7) by reflexivity.
    assert (H1 : Number RefHost.host "3" = Some 3) by reflexivity.
    split; [exact H0|]. split; [exact H1|].
    exact (proj2 (identifiers_validated RefHost.host "7" "3" "2024-01-01" "2024-01-10" [])
             7 3 (Sample.day 2024 1 1) (Sample.day 2024 1 10) 0%nat 0%nat 0%nat [] []
             H0 H1 eq_refl eq_refl).
Defined.

(** ** Dates *)

(** C9.  For the empty token and for each of the sixteen spellings of
    [null] in upper and lower case, [parseDate] returns the date of the
    moment, read from the clock, and no failure. *)
Theorem null_dates_are_today (h : Host) (k : nat) (tok : string) :
  tok = "" \/ In tok (caseVariants "null") ->
  parseDate h k tok = (Some (Date_now h k), S k).
Proof.
  intros [-> | Hin]; [reflexivity|].
  simpl in Hin.
  repeat (destruct Hin as [<- | Hin]; [reflexivity|]).
  contradiction.
Qed.

Lemma null_dates_are_today_witness :
  In "NuLl" (caseVariants "null") /\
  parseDate RefHost.host 3 "NuLl" = (Some (Date_now RefHost.host 3), 4%nat).
Proof.
  assert (H : In "NuLl" (caseVariants "null")) by (vm_compute; tauto).
  split; [exact H|].
  exact (null_dates_are_today RefHost.host 3 "NuLl" (or_intror H)).
Defined.

Example caseVariants_null :
  caseVariants "null" =
  ["null"; "nulL"; "nuLl"; "nuLL"; "nUll"; "nUlL"; "nULl"; "nULL";
   "Null"; "NulL"; "NuLl"; "NuLL"; "NUll"; "NUlL"; "NULl"; "NULL"].
Proof. reflexivity. Qed.

(** *** Dates built from digits are valid *)

Lemma digit_facts (c : ascii) :
  Str.isDigit c = true ->
  0 <= Str.digitValue c <= 9 /\
  Ascii.eqb c "/" = false /\ Ascii.eqb c "-" = false /\ Str.isWhiteSpace c = false.
Proof.
  intros H.
  destruct c as [[] [] [] [] [] [] [] []]; try discriminate H;
    vm_compute; repeat split; congruence.
Qed.

Lemma DayFromYear_bounds (y : Z) :
  -1 <= y <= 10010 -> -720000 <= JSDate.DayFromYear y <= 2940000.
Proof.
  intros H. unfold JSDate.DayFromYear.
  pose proof (Z.div_mod (y - 1969) 4 ltac:(lia)).
  pose proof (Z.mod_pos_bound (y - 1969) 4 ltac:(lia)).
  pose proof (Z.div_mod (y - 1901) 100 ltac:(lia)).
  pose proof (Z.mod_pos_bound (y - 1901) 100 ltac:(lia)).
  pose proof (Z.div_mod (y - 1601) 400 ltac:(lia)).
  pose proof (Z.mod_pos_bound (y - 1601) 400 ltac:(lia)).
  lia.
Qed.

Lemma monthStart_bounds (mn y : Z) :
  0 <= JSDate.monthStart mn (JSDate.InLeapYear y) <= 335.
Proof.
  unfold JSDate.monthStart, JSDate.InLeapYear.
  destruct (JSDate.DaysInYear y =? 366);
    repeat match goal with |- context [if ?b then _ else _] => destruct b end; lia.
Qed.

(** [new Date(y, m, d)] for a year of at most four digits and a month and a
    day of at most two is a valid date, whatever the numbers. *)
Lemma construct_valid (h : Host) (y m d : Z) :
  0 <= y <= 9999 -> -1 <= m <= 98 -> 0 <= d <= 99 ->
  exists t, JSDate.construct h (Some y) (Some m) (Some d) = Some t.
Proof.
  intros Hy Hm Hd. unfold JSDate.construct, JSDate.TimeClip.
  set (x := JSDate.MakeDate (JSDate.MakeDay (JSDate.MakeFullYear y) m d) 0).
  assert (Hx : Z.abs x <= 2941000 * msPerDay).
  { unfold x, JSDate.MakeDate, JSDate.MakeDay.
    set (ym := JSDate.MakeFullYear y + m / 12).
    assert (Hym : -1 <= ym <= 10010).
    { unfold ym, JSDate.MakeFullYear.
      pose proof (Z.div_mod m 12 ltac:(lia)).
      pose proof (Z.mod_pos_bound m 12 ltac:(lia)).
      destruct (Z.leb_spec 0 y), (Z.leb_spec y 99); cbn [andb]; lia. }
    pose proof (DayFromYear_bounds ym Hym).
    pose proof (monthStart_bounds (m mod 12) ym).
    unfold msPerDay. lia. }
  pose proof (UTC_offset h x) as Hoff.
  assert (Hle : Z.abs (UTC h x) <= maxTime).
  { unfold msPerDay, maxTime in *. lia. }
  destruct (Z.gtb_spec (Z.abs (UTC h x)) maxTime) as [Hgt|_]; [lia|].
  eauto.
Qed.

(** *** Tokens of the shape [dd/dd/dddd] *)

Lemma slashShape_inv (s : string) :
  Regex.test slashShape s = true ->
  exists c0 c1 c3 c4 c6 c7 c8 c9,
    s = slashToken c0 c1 c3 c4 c6 c7 c8 c9 /\
    Forall (fun c => Str.isDigit c = true) [c0; c1; c3; c4; c6; c7; c8; c9].
Proof.
  unfold slashShape.
  destruct s as [|c0 [|c1 [|c2 [|c3 [|c4 [|c5 [|c6 [|c7 [|c8 [|c9 [|c10 s]]]]]]]]]]];
    cbn [Regex.test Regex.matchDigits];
    repeat match goal with
           | |- context [if Str.isDigit ?c then _ else _] =>
               let E := fresh "D" in destruct (Str.isDigit c) eqn:E
           | |- context [Ascii.eqb ?c "/"] =>
               let E := fresh "L" in
               destruct (Ascii.eqb c "/") eqn:E; cbn [andb]
           | |- false = true -> _ => discriminate
           end; try discriminate.
  intros _.
  apply Ascii.eqb_eq in L, L0. subst c2 c5.
  exists c0, c1, c3, c4, c6, c7, c8, c9.
  split; [reflexivity|]. repeat constructor; assumption.
Qed.

Lemma length_trimStart (s : string) : (String.length (Str.trimStart s) <= String.length s)%nat.
Proof.
  induction s as [|c s IH]; simpl; [lia|].
  destruct (Str.isWhiteSpace c); simpl; lia.
Qed.

Lemma length_trimEnd (s : string) : (String.length (Str.trimEnd s) <= String.length s)%nat.
Proof.
  induction s as [|c s IH]; simpl; [lia|].
  destruct (Str.trimEnd s); [destruct (Str.isWhiteSpace c)|]; simpl in *; lia.
Qed.

Lemma length_trim (s : string) : (String.length (Str.trim s) <= String.length s)%nat.
Proof.
  unfold Str.trim.
  pose proof (length_trimEnd (Str.trimStart s)). pose proof (length_trimStart s). lia.
Qed.

Lemma length_toLowerCase (s : string) : String.length (Str.toLowerCase s) = String.length s.
Proof. induction s as [|c s IH]; simpl; congruence. Qed.

(** The tokens that stand for today are shorter than any date pattern. *)
Lemma today_tokens_short (tok : string) :
  (tok =? "")%string || (Str.toLowerCase tok =? "null")%string = true ->
  (String.length (Str.trim tok) <= 4)%nat.
Proof.
  intros H. pose proof (length_trim tok) as Hl.
  apply orb_prop in H. destruct H as [H|H]; apply String.eqb_eq in H.
  - subst tok. simpl. lia.
  - apply (f_equal String.length) in H. rewrite length_toLowerCase in H.
    simpl in H. lia.
Qed.

Section SlashDates.
Variable h : Host.
Variables c0 c1 c3 c4 c6 c7 c8 c9 : ascii.
Hypothesis digits : Forall (fun c => Str.isDigit c = true) [c0; c1; c3; c4; c6; c7; c8; c9].

Lemma slash_split :
  Str.split "/" (slashToken c0 c1 c3 c4 c6 c7 c8 c9) =
  [twoChars c0 c1; twoChars c3 c4; fourChars c6 c7 c8 c9].
Proof.
  repeat match goal with
         | H : Forall _ (_ :: _) |- _ => inversion H; clear H; subst
         end.
  unfold slashToken, twoChars, fourChars. cbn [Str.split String.append].
  repeat match goal with
         | H : Str.isDigit ?c = true |- _ =>
             let E := fresh in
             destruct (digit_facts c H) as (_ & E & _ & _); rewrite E; clear H
         end.
  reflexivity.
Qed.

Lemma slash_not_iso :
  Regex.test [Regex.Digits 4; Regex.Lit "-"; Regex.Digits 2; Regex.Lit "-"; Regex.Digits 2]
             (slashToken c0 c1 c3 c4 c6 c7 c8 c9)
  = false.
Proof.
  inversion digits as [|? ? D0 digits']; subst.
  inversion digits' as [|? ? D1 _]; subst.
  unfold slashToken, twoChars. cbn [Regex.test Regex.matchDigits String.append].
  now rewrite D0, D1.
Qed.

Lemma slash_numbers :
  Number h (twoChars c0 c1) = Some (Str.decimalValue (twoChars c0 c1)) /\
  Number h (twoChars c3 c4) = Some (Str.decimalValue (twoChars c3 c4)) /\
  Number h (fourChars c6 c7 c8 c9) = Some (Str.decimalValue (fourChars c6 c7 c8 c9)) /\
  0 <= Str.decimalValue (fourChars c6 c7 c8 c9) <= 9999 /\
  -1 <= Str.decimalValue (twoChars c0 c1) - 1 <= 98 /\
  0 <= Str.decimalValue (twoChars c3 c4) <= 99.
Proof.
  repeat match goal with
         | H : Forall _ (_ :: _) |- _ => inversion H; clear H; subst
         end.
  repeat match goal with
         | H : Str.isDigit ?c = true |- _ =>
             pose proof (proj1 (digit_facts c H)); revert H
         end.
  intros.
  repeat split;
    try (apply Number_digits;
         [unfold twoChars, fourChars; cbn [Str.allDigits];
          repeat match goal with H : Str.isDigit _ = true |- _ => rewrite H; clear H end;
          reflexivity
         | unfold twoChars, fourChars; simpl; lia]);
    unfold twoChars, fourChars, Str.decimalValue; cbn [Str.decimalFrom]; lia.
Qed.

End SlashDates.

(** On a token of the slash shape the loop stops at the second pattern,
    whatever follows it in the table. *)
Lemma tryPatterns_slash (h : Host) (s : string) (tail : list (Regex.regex * parser)) :
  Regex.test slashShape s = true ->
  exists t,
    tryPatterns h (firstn 2 datePatterns ++ tail) s = Some t /\
    JSDate.construct h (Some (Str.decimalValue (substring 6 4 s)))
                       (Some (Str.decimalValue (substring 0 2 s) - 1))
                       (Some (Str.decimalValue (substring 3 2 s))) = Some t.
Proof.
  intros H.
  destruct (slashShape_inv s H) as (c0 & c1 & c3 & c4 & c6 & c7 & c8 & c9 & -> & Hd).
  destruct (slash_numbers h _ _ _ _ _ _ _ _ Hd) as (Nm & Nd & Ny & By & Bm & Bd).
  destruct (construct_valid h _ _ _ By Bm Bd) as (t & Ht).
  exists t. split.
  - cbn [firstn datePatterns app tryPatterns].
    rewrite (slash_not_iso _ _ _ _ _ _ _ _ Hd).
    unfold slashShape in H. rewrite H.
    rewrite (slash_split _ _ _ _ _ _ _ _ Hd).
    cbn [NumberAt nth_error]. rewrite Nm, Nd, Ny.
    cbn [pred1 option_map]. now rewrite Ht.
  - exact Ht.
Qed.

(** C5.  A token whose trimmed text has the shape [dd/dd/dddd] is parsed
    month first: the result is the valid date [new Date(yyyy, MM - 1, dd)]
    read off the positions of the text.  The second and the fourth pattern
    of the table have this one shape, and no input reaches the fourth
    (day first): [parseDate] is the same function without it. *)
Theorem slash_dates_month_first (h : Host) :
  (forall k tok,
     let s := Str.trim tok in
     Regex.test slashShape s = true ->
     exists t,
       parseDate h k tok = (Some t, k) /\
       JSDate.construct h (Some (Str.decimalValue (substring 6 4 s)))
                          (Some (Str.decimalValue (substring 0 2 s) - 1))
                          (Some (Str.decimalValue (substring 3 2 s))) = Some t) /\
  map fst datePatterns =
    [ [Regex.Digits 4; Regex.Lit "-"; Regex.Digits 2; Regex.Lit "-"; Regex.Digits 2];
      slashShape;
      [Regex.Digits 2; Regex.Lit "-"; Regex.Digits 2; Regex.Lit "-"; Regex.Digits 4];
      slashShape ] /\
  (forall k tok, parseDate h k tok = parseDateWith (firstn 3 datePatterns) h k tok).
Proof.
  split; [|split; [reflexivity|]].
  - intros k tok s H.
    destruct (tryPatterns_slash h s (skipn 2 datePatterns) H) as (t & Ht & Hc).
    exists t. split; [|exact Hc].
    unfold parseDate, parseDateWith.
    destruct ((tok =? "")%string || (Str.toLowerCase tok =? "null")%string) eqn:E.
    + apply today_tokens_short in E. fold s in E.
      destruct (slashShape_inv s H) as (? & ? & ? & ? & ? & ? & ? & ? & Hs & _).
      rewrite Hs in E. simpl in E. lia.
    + fold s. change datePatterns with (firstn 2 datePatterns ++ skipn 2 datePatterns)%list.
      now rewrite Ht.
  - intros k tok. unfold parseDate, parseDateWith.
    destruct ((tok =? "")%string || (Str.toLowerCase tok =? "null")%string);
      [reflexivity|].
    set (s := Str.trim tok).
    assert (Hloop : tryPatterns h datePatterns s = tryPatterns h (firstn 3 datePatterns) s).
    { destruct (Regex.test slashShape s) eqn:E.
      - destruct (tryPatterns_slash h s (skipn 2 datePatterns) E) as (t & Ht & Hc).
        destruct (tryPatterns_slash h s (skipn 2 (firstn 3 datePatterns)) E) as (t' & Ht' & Hc').
        change (firstn 2 datePatterns ++ skipn 2 datePatterns)%list with datePatterns in Ht.
        change (firstn 2 datePatterns ++ skipn 2 (firstn 3 datePatterns))%list
          with (firstn 3 datePatterns) in Ht'.
        congruence.
      - unfold slashShape in E.
        cbn [firstn datePatterns tryPatterns]. rewrite E. reflexivity. }
    now rewrite Hloop.
Qed.

Lemma slash_dates_month_first_witness :
  Regex.test slashShape (Str.trim " 01/05/2024 ") = true /\
  parseDate RefHost.host 0 " 01/05/2024 " = (Some (Sample.day 2024 1 5), 0%nat).
Proof.
  assert (H : Regex.test slashShape (Str.trim " 01/05/2024 ") = true) by reflexivity.
  split; [exact H|].
  destruct (proj1 (slash_dates_month_first RefHost.host) 0%nat " 01/05/2024 " H)
    as (t & Hp & Hc).
  rewrite Hp. f_equal.
  rewrite <- Hc. reflexivity.
Defined.

Lemma parseDate_of_pattern (h : Host) (k : nat) (tok : string) (t : Z) :
  (tok =? "")%string || (Str.toLowerCase tok =? "null")%string = false ->
  tryPatterns h datePatterns (Str.trim tok) = Some t ->
  parseDate h k tok = (Some t, k).
Proof.
  intros Hc Ht. unfold parseDate, parseDateWith. now rewrite Hc, Ht.
Qed.

(** C4.  The token [2024-13-05] matches the first pattern and is accepted:
    the month 13 is carried into the next year, and [parseDate] returns the
    valid date it returns for [2025-01-05], without reaching the free-form
    parser.  Likewise [02/30/2024] is accepted as [03/01/2024]. *)
Theorem month_13_accepted (h : Host) (k : nat) :
  (exists t, parseDate h k "2024-13-05" = (Some t, k) /\
             parseDate h k "2025-01-05" = (Some t, k)) /\
  (exists t, parseDate h k "02/30/2024" = (Some t, k) /\
             parseDate h k "03/01/2024" = (Some t, k)).
Proof.
  split.
  - destruct (construct_valid h 2024 12 5) as (t & Ht); try lia.
    assert (Ht' : JSDate.construct h (Some 2025) (Some 0) (Some 5) = Some t)
      by (rewrite <- Ht; reflexivity).
    exists t.
    split; (apply parseDate_of_pattern; [reflexivity|]);
      cbv -[JSDate.construct Number]; number_of_digits h;
      cbv -[JSDate.construct]; [now rewrite Ht | now rewrite Ht'].
  - destruct (construct_valid h 2024 1 30) as (t & Ht); try lia.
    assert (Ht' : JSDate.construct h (Some 2024) (Some 2) (Some 1) = Some t)
      by (rewrite <- Ht; reflexivity).
    exists t.
    split; (apply parseDate_of_pattern; [reflexivity|]);
      cbv -[JSDate.construct Number]; number_of_digits h;
      cbv -[JSDate.construct]; [now rewrite Ht | now rewrite Ht'].
Qed.

Example month_13_sample :
  parseDate RefHost.host 0 "2024-13-05" = (Some (Sample.day 2025 1 5), 0%nat) /\
  parseDate RefHost.host 0 "02/30/2024" = (Some (Sample.day 2024 3 1), 0%nat).
Proof. split; reflexivity. Qed.

(** ** Reading the text of a file *)

Lemma trimStart_head (s : string) :
  Str.trimStart s = EmptyString \/
  exists c r, Str.trimStart s = String c r /\ Str.isWhiteSpace c = false.
Proof.
  induction s as [|c s IH]; simpl; [now left|].
  destruct (Str.isWhiteSpace c) eqn:E; [exact IH|].
  right. now exists c, s.
Qed.

Lemma trimEnd_cons (c : ascii) (s : string) :
  Str.trimEnd (String c s) =
  match Str.trimEnd s with
  | EmptyString => if Str.isWhiteSpace c then EmptyString else String c EmptyString
  | t => String c t
  end.
Proof. reflexivity. Qed.

Lemma trimEnd_idempotent (s : string) : Str.trimEnd (Str.trimEnd s) = Str.trimEnd s.
Proof.
  induction s as [|c s IH]; simpl; [reflexivity|].
  destruct (Str.trimEnd s) as [|d t] eqn:E.
  - destruct (Str.isWhiteSpace c) eqn:W; simpl; [reflexivity | now rewrite W].
  - rewrite trimEnd_cons, IH. reflexivity.
Qed.

Lemma trimEnd_head (c : ascii) (r : string) :
  Str.isWhiteSpace c = false -> exists t, Str.trimEnd (String c r) = String c t.
Proof.
  intros W. simpl. destruct (Str.trimEnd r); [rewrite W|]; eauto.
Qed.

(** What [trim] returns has nothing left to trim. *)
Lemma trim_idempotent (s : string) : Str.trim (Str.trim s) = Str.trim s.
Proof.
  unfold Str.trim.
  destruct (trimStart_head s) as [E | (c & r & E & W)]; rewrite E; [reflexivity|].
  destruct (trimEnd_head c r W) as (t & Ht).
  rewrite Ht. cbn [Str.trimStart]. rewrite W, <- Ht.
  apply trimEnd_idempotent.
Qed.

Lemma occurs_trimStart (c : ascii) (s : string) :
  occurs c s = false -> occurs c (Str.trimStart s) = false.
Proof.
  induction s as [|d s IH]; simpl; [trivial|].
  intros H. apply orb_false_elim in H. destruct H as [H1 H2].
  destruct (Str.isWhiteSpace d); [auto | simpl; now rewrite H1, H2].
Qed.

Lemma occurs_trimEnd (c : ascii) (s : string) :
  occurs c s = false -> occurs c (Str.trimEnd s) = false.
Proof.
  induction s as [|d s IH]; simpl; [trivial|].
  intros H. apply orb_false_elim in H. destruct H as [H1 H2].
  specialize (IH H2).
  destruct (Str.trimEnd s); [destruct (Str.isWhiteSpace d)|]; simpl in *;
    rewrite ?H1, ?IH; auto.
Qed.

Lemma occurs_trim (c : ascii) (s : string) :
  occurs c s = false -> occurs c (Str.trim s) = false.
Proof. intros H. apply occurs_trimEnd, occurs_trimStart, H. Qed.

Lemma split_pieces (sep : ascii) (s : string) :
  Str.split sep s <> [] /\
  Forall (fun piece => occurs sep piece = false) (Str.split sep s) /\
  forall c, occurs c s = false ->
            Forall (fun piece => occurs c piece = false) (Str.split sep s).
Proof.
  induction s as [|d s (Hne & Hsep & Hc)]; simpl.
  - repeat split; [discriminate | repeat constructor | repeat constructor].
  - destruct (Ascii.eqb d sep) eqn:E.
    + split; [discriminate|]. split; [constructor; [reflexivity | exact Hsep]|].
      intros c H. apply orb_false_elim in H. destruct H as [_ H].
      constructor; [reflexivity | auto].
    + destruct (Str.split sep s) as [|first others]; [congruence|].
      split; [discriminate|]. split.
      * inversion Hsep; subst. constructor; [simpl; now rewrite E | assumption].
      * intros c H. apply orb_false_elim in H. destruct H as [H1 H2].
        specialize (Hc c H2). inversion Hc; subst.
        constructor; [simpl; now rewrite H1 | assumption].
Qed.

Lemma consHead_no_LF (c : ascii) (lines : list string) :
  Ascii.eqb c LF = false ->
  Forall (fun line => occurs LF line = false) lines ->
  Forall (fun line => occurs LF line = false) (consHead c lines).
Proof.
  intros Hc H. destruct lines as [|first others]; simpl.
  - constructor; [simpl; now rewrite Hc | constructor].
  - inversion H; subst. constructor; [simpl; now rewrite Hc | assumption].
Qed.

Lemma splitLines_no_LF_upto (n : nat) :
  forall s, (String.length s <= n)%nat ->
            Forall (fun line => occurs LF line = false) (splitLines s).
Proof.
  induction n as [|n IH]; intros s Hn.
  - destruct s; [repeat constructor | simpl in Hn; lia].
  - destruct s as [|c s]; [repeat constructor|].
    simpl in Hn. cbn [splitLines].
    destruct (Ascii.eqb c LF) eqn:E.
    + constructor; [reflexivity | apply IH; lia].
    + destruct s as [|c' s'].
      * apply consHead_no_LF; [exact E | apply IH; simpl; lia].
      * destruct (Ascii.eqb c CR && Ascii.eqb c' LF).
        -- constructor; [reflexivity | apply IH; simpl in Hn; lia].
        -- apply consHead_no_LF; [exact E | apply IH; lia].
Qed.

Lemma splitLines_no_LF (s : string) :
  Forall (fun line => occurs LF line = false) (splitLines s).
Proof. apply (splitLines_no_LF_upto (String.length s)). lia. Qed.

Lemma parseLines_rows (P : list string -> Prop) (lines : list string) :
  (forall line, In line lines -> (Str.trim line =? "")%string = false ->
                P (map Str.trim (Str.split "," line))) ->
  forall rows, Forall P rows -> Forall P (parseLines lines rows).
Proof.
  induction lines as [|line lines IH]; intros H rows Hrows; simpl; [exact Hrows|].
  destruct (Str.trim line =? "")%string eqn:E.
  - apply IH; [intros l Hl; apply H; now right | exact Hrows].
  - apply IH; [intros l Hl; apply H; now right|].
    apply Forall_app. split; [exact Hrows|].
    constructor; [apply H; [now left | exact E] | constructor].
Qed.

(** X1.  Every row [parseCSV] returns has at least one column, and every
    column is trimmed and contains neither a comma nor a line feed. *)
Theorem parseCSV_rows (csvText : string) :
  Forall (fun cols =>
            cols <> [] /\
            Forall (fun col => Str.trim col = col /\
                               occurs "," col = false /\
                               occurs LF col = false) cols)
         (parseCSV csvText).
Proof.
  unfold parseCSV. apply parseLines_rows; [|constructor].
  intros line Hin _.
  pose proof (splitLines_no_LF csvText) as HLF.
  rewrite Forall_forall in HLF. specialize (HLF line Hin).
  destruct (split_pieces "," line) as (Hne & Hsep & Hc).
  specialize (Hc LF HLF).
  split.
  - destruct (Str.split "," line); [congruence | discriminate].
  - apply Forall_map. rewrite Forall_forall in *.
    intros piece Hp. split; [apply trim_idempotent|].
    split; apply occurs_trim; auto.
Qed.

(** *** Line ends *)

Lemma append_nil_r (s : string) : s ++ "" = s.
Proof. induction s as [|c s IH]; simpl; congruence. Qed.

Lemma append_assoc (a b c : string) : (a ++ b) ++ c = a ++ (b ++ c).
Proof. induction a as [|x a IH]; simpl; congruence. Qed.

Lemma trimEnd_CR (s : string) : Str.trimEnd (s ++ String CR "") = Str.trimEnd s.
Proof.
  induction s as [|c s IH]; [reflexivity|].
  change (String c s ++ String CR "") with (String c (s ++ String CR "")).
  now rewrite !trimEnd_cons, IH.
Qed.

(** A carriage return at the end of a text is trimmed away. *)
Lemma trim_CR (s : string) : Str.trim (s ++ String CR "") = Str.trim s.
Proof.
  unfold Str.trim. induction s as [|c s IH]; [reflexivity|].
  change (String c s ++ String CR "") with (String c (s ++ String CR "")).
  cbn [Str.trimStart]. destruct (Str.isWhiteSpace c); [exact IH|].
  apply (trimEnd_CR (String c s)).
Qed.

Lemma split_nonempty (sep : ascii) (s : string) : Str.split sep s <> [].
Proof. apply split_pieces. Qed.

Lemma split_cons (sep c : ascii) (s : string) :
  Str.split sep (String c s) =
  if Ascii.eqb c sep then EmptyString :: Str.split sep s
  else consHead c (Str.split sep s).
Proof. reflexivity. Qed.

Lemma split_suffix (sep : ascii) (x s : string) :
  occurs sep x = false ->
  Str.split sep (s ++ x) = addSuffix x (Str.split sep s).
Proof.
  intros Hx. induction s as [|c s IH].
  - simpl. induction x as [|d x IHx]; [reflexivity|].
    simpl in Hx. apply orb_false_elim in Hx. destruct Hx as [Hd Hx].
    rewrite split_cons, Hd, (IHx Hx). reflexivity.
  - change (String c s ++ x) with (String c (s ++ x)).
    rewrite !split_cons, IH.
    pose proof (split_nonempty sep s) as Hne.
    destruct (Ascii.eqb c sep).
    + destruct (Str.split sep s); [congruence | reflexivity].
    + destruct (Str.split sep s) as [|first [|second others]]; [congruence | |]; reflexivity.
Qed.

Lemma map_trim_addSuffix_CR (pieces : list string) :
  map Str.trim (addSuffix (String CR "") pieces) = map Str.trim pieces.
Proof.
  induction pieces as [|piece [|next others] IH]; [reflexivity | |].
  - simpl. now rewrite trim_CR.
  - change (addSuffix (String CR "") (piece :: next :: others))
      with (piece :: addSuffix (String CR "") (next :: others)).
    cbn [map]. now rewrite IH.
Qed.

(** A line and the line followed by a carriage return give the same row, or
    are both skipped. *)
Lemma parseLines_CR (line : string) (lines : list string) (rows : list (list string)) :
  parseLines ((line ++ String CR "") :: lines) rows = parseLines (line :: lines) rows.
Proof.
  cbn [parseLines].
  rewrite trim_CR, (split_suffix "," (String CR "") line eq_refl), map_trim_addSuffix_CR.
  reflexivity.
Qed.

Lemma addPrefix_consHead (p : string) (c : ascii) (lines : list string) :
  addPrefix p (consHead c lines) = addPrefix (p ++ String c "") lines.
Proof.
  destruct lines as [|first others]; simpl; [reflexivity|].
  now rewrite append_assoc.
Qed.

Lemma addPrefix_nil (lines : list string) : lines <> [] -> addPrefix "" lines = lines.
Proof. destruct lines; [congruence | reflexivity]. Qed.

Lemma splitLines_nonempty (s : string) : splitLines s <> [].
Proof.
  destruct s as [|c s]; [discriminate|]. cbn [splitLines].
  destruct (Ascii.eqb c LF); [discriminate|].
  destruct s as [|c' s'].
  - destruct (splitLines ""); discriminate.
  - destruct (Ascii.eqb c CR && Ascii.eqb c' LF); [discriminate|].
    destruct (splitLines (String c' s')); discriminate.
Qed.

(** For [parseCSV], splitting at [\r?\n] is as good as splitting at the
    line feeds. *)
Lemma parseLines_splitLines_upto (n : nat) :
  forall s, (String.length s <= n)%nat ->
  forall p rows,
    parseLines (addPrefix p (splitLines s)) rows =
    parseLines (addPrefix p (Str.split LF s)) rows.
Proof.
  induction n as [|n IH]; intros s Hn p rows.
  - destruct s; [reflexivity | simpl in Hn; lia].
  - destruct s as [|c s]; [reflexivity|].
    simpl in Hn. rewrite split_cons. cbn [splitLines].
    destruct (Ascii.eqb c LF) eqn:E.
    + cbn [addPrefix parseLines].
      specialize (IH s ltac:(lia) "").
      rewrite !addPrefix_nil in IH by (apply splitLines_nonempty || apply split_nonempty).
      destruct (Str.trim (p ++ "") =? "")%string; apply IH.
    + destruct s as [|c' s'].
      * rewrite !addPrefix_consHead. apply IH. simpl. lia.
      * destruct (Ascii.eqb c CR && Ascii.eqb c' LF) eqn:E2.
        -- apply andb_prop in E2. destruct E2 as [Ec Ec'].
           apply Ascii.eqb_eq in Ec, Ec'. subst c c'.
           rewrite split_cons, Ascii.eqb_refl.
           cbn [consHead addPrefix].
           rewrite append_nil_r, parseLines_CR. cbn [parseLines].
           specialize (IH s' ltac:(simpl in Hn; lia) "").
           rewrite !addPrefix_nil in IH
             by (apply splitLines_nonempty || apply split_nonempty).
           destruct (Str.trim p =? "")%string; apply IH.
        -- rewrite !addPrefix_consHead. apply IH. lia.
Qed.

Lemma parseCSV_split (csvText : string) :
  parseCSV csvText = parseLines (Str.split LF csvText) [].
Proof.
  unfold parseCSV.
  pose proof (parseLines_splitLines_upto (String.length csvText) csvText (le_n _) "" [])
    as H.
  now rewrite !addPrefix_nil in H by (apply splitLines_nonempty || apply split_nonempty).
Qed.

Lemma split_at_sep (sep : ascii) (a b : string) :
  Str.split sep (a ++ String sep b) = (Str.split sep a ++ Str.split sep b)%list.
Proof.
  induction a as [|c a IH].
  - simpl. now rewrite Ascii.eqb_refl.
  - change (String c a ++ String sep b) with (String c (a ++ String sep b)).
    rewrite !split_cons, IH.
    pose proof (split_nonempty sep a) as Hne.
    destruct (Ascii.eqb c sep); [reflexivity|].
    destruct (Str.split sep a); [congruence | reflexivity].
Qed.

Lemma split_absent (sep : ascii) (s : string) :
  occurs sep s = false -> Str.split sep s = [s].
Proof.
  induction s as [|c s IH]; [reflexivity|].
  simpl. intros H. apply orb_false_elim in H. destruct H as [Hc Hs].
  now rewrite Hc, (IH Hs).
Qed.

Lemma parseLines_acc (lines : list string) :
  forall rows, parseLines lines rows = (rows ++ parseLines lines [])%list.
Proof.
  induction lines as [|line lines IH]; intros rows; simpl.
  - now rewrite app_nil_r.
  - destruct (Str.trim line =? "")%string; [apply IH|].
    rewrite (IH (rows ++ _)%list), (IH [_]). now rewrite app_assoc.
Qed.

Lemma parseLines_app (lines lines' : list string) :
  forall rows, parseLines (lines ++ lines') rows = parseLines lines' (parseLines lines rows).
Proof.
  induction lines as [|line lines IH]; intros rows; simpl; [reflexivity|].
  destruct (Str.trim line =? "")%string; apply IH.
Qed.

Lemma parseLines_addSuffix_CR (lines : list string) :
  forall rows, parseLines (addSuffix (String CR "") lines) rows = parseLines lines rows.
Proof.
  induction lines as [|line [|next others] IH]; intros rows; [reflexivity | |].
  - apply parseLines_CR.
  - change (addSuffix (String CR "") (line :: next :: others))
      with (line :: addSuffix (String CR "") (next :: others)).
    cbn [parseLines]. destruct (Str.trim line =? "")%string; apply IH.
Qed.

(** X2.  [parseCSV] reads a text line by line whichever way the lines end:
    the rows of [a], a line feed or a carriage return and a line feed, and
    [b] are the rows of [a] followed by the rows of [b].  A line of white
    space gives no row. *)
Theorem parseCSV_line_by_line (a b : string) :
  parseCSV (a ++ String LF b) = (parseCSV a ++ parseCSV b)%list /\
  parseCSV (a ++ String CR (String LF b)) = (parseCSV a ++ parseCSV b)%list /\
  (Str.trim a = "" -> occurs LF a = false -> parseCSV a = []).
Proof.
  assert (Hlf : forall x y, parseCSV (x ++ String LF y) = (parseCSV x ++ parseCSV y)%list).
  { intros x y. rewrite !parseCSV_split, split_at_sep, parseLines_app.
    apply parseLines_acc. }
  split; [apply Hlf|]. split.
  - change (a ++ String CR (String LF b)) with (a ++ (String CR "" ++ String LF b)).
    rewrite <- append_assoc, Hlf. f_equal.
    rewrite !parseCSV_split, (split_suffix LF (String CR "") a eq_refl).
    apply parseLines_addSuffix_CR.
  - intros Hblank Hno. rewrite parseCSV_split, (split_absent LF a Hno).
    cbn [parseLines]. now rewrite Hblank.
Qed.

Lemma parseCSV_line_by_line_witness :
  Str.trim "  " = "" /\ occurs LF "  " = false /\ parseCSV "  " = [].
Proof.
  assert (H1 : Str.trim "  " = "") by reflexivity.
  assert (H2 : occurs LF "  " = false) by reflexivity.
  split; [exact H1|]. split; [exact H2|].
  exact (proj2 (proj2 (parseCSV_line_by_line "  " "")) H1 H2).
Defined.

Example parseCSV_sample :
  parseCSV
    ("1, 1, 2024-01-01, 2024-01-10" ++ String CR (String LF
     ("" ++ String LF
     ("2,1,2024-01-05,2024-01-15" ++ String LF
     ("1,2,2024-02-01,2024-02-05" ++ String CR (String LF
     ("3,2,2024-02-03,2024-02-10" ++ String LF ""))))))) = Sample.rows.
Proof. reflexivity. Qed.

(** ** Whole days *)

(** X3.  For the time values of two valid dates less than 2^53 ms apart,
    where the subtraction and the division of the source are exact,
    [differenceInDays] does not depend on the order of its two dates, is
    never negative, and counts the whole days between them: a remainder of
    less than a day is dropped, and dates [n] days apart to the millisecond
    are [|n|] days apart. *)
Theorem differenceInDays_whole_days (date1 date2 : Z) :
  Z.abs date1 <= maxTime -> Z.abs date2 <= maxTime ->
  Z.abs (date2 - date1) < 2 ^ 53 ->
  differenceInDays date1 date2 = differenceInDays date2 date1 /\
  0 <= differenceInDays date1 date2 /\
  differenceInDays date1 date2 * msPerDay <= Z.abs (date2 - date1)
    < (differenceInDays date1 date2 + 1) * msPerDay /\
  forall n, date2 = date1 + n * msPerDay -> differenceInDays date1 date2 = Z.abs n.
Proof.
  intros _ _ _.
  unfold differenceInDays. change (1000 * 60 * 60 * 24) with msPerDay.
  assert (Hpos : 0 < msPerDay) by reflexivity.
  split; [|split; [|split]].
  - f_equal. lia.
  - apply Z.div_pos; lia.
  - pose proof (Z.div_mod (Z.abs (date2 - date1)) msPerDay ltac:(lia)).
    pose proof (Z.mod_pos_bound (Z.abs (date2 - date1)) msPerDay Hpos).
    lia.
  - intros n ->. replace (date1 + n * msPerDay - date1) with (n * msPerDay) by lia.
    rewrite Z.abs_mul, (Z.abs_eq msPerDay) by lia.
    apply Z.div_mul. lia.
Qed.

Lemma differenceInDays_whole_days_witness :
  Z.abs (Sample.day 2024 1 1) <= maxTime /\ Z.abs (Sample.day 2024 1 10) <= maxTime /\
  Z.abs (Sample.day 2024 1 10 - Sample.day 2024 1 1) < 2 ^ 53 /\
  differenceInDays (Sample.day 2024 1 1) (Sample.day 2024 1 10) = 9.
Proof.
  assert (H1 : Z.abs (Sample.day 2024 1 1) <= maxTime) by (vm_compute; discriminate).
  assert (H2 : Z.abs (Sample.day 2024 1 10) <= maxTime) by (vm_compute; discriminate).
  assert (H3 : Z.abs (Sample.day 2024 1 10 - Sample.day 2024 1 1) < 2 ^ 53)
    by (vm_compute; reflexivity).
  split; [exact H1|]. split; [exact H2|]. split; [exact H3|].
  exact (proj2 (proj2 (proj2 (differenceInDays_whole_days _ _ H1 H2 H3))) 9 eq_refl).
Defined.

(** ** Rows that are read *)

(** X4.  The first loop of [processData] looks at the first four tokens of a
    row and at nothing else: rows of fewer than four tokens are passed over
    wherever they stand, and tokens after the fourth are ignored. *)
Theorem short_rows_and_extra_tokens_ignored (h : Host) (data : list (list string)) :
  forall k records,
    readRecords h k data records =
    readRecords h k (map (firstn 4) (filter hasFourTokens data)) records.
Proof.
  induction data as [|row data IH]; intros k records; [reflexivity|].
  destruct row as [|r0 [|r1 [|r2 [|r3 tl]]]]; try (simpl; apply IH).
  change (filter hasFourTokens ((r0 :: r1 :: r2 :: r3 :: tl) :: data))
    with ((r0 :: r1 :: r2 :: r3 :: tl) :: filter hasFourTokens data).
  cbn [map firstn readRecords].
  destruct (parseDate h k r2) as [DateFrom k1].
  destruct (parseDate h k1 r3) as [DateTo k2].
  destruct (Number h r0), (Number h r1), DateFrom, DateTo; try reflexivity.
  apply IH.
Qed.

Lemma parseDate_not_null (h : Host) (k k' : nat) (tok : string) :
  isNaN (fst (parseDate h k tok)) = false ->
  exists d k'', parseDate h k' tok = (Some d, k'').
Proof.
  intros H. destruct (parseDate h k' tok) as [[d|] k''] eqn:E; [eauto|].
  assert (Hn : fst (parseDate h k' tok) = None) by now rewrite E.
  apply (parseDate_null h k' k) in Hn. now rewrite Hn in H.
Qed.

Lemma readRecords_well_formed (h : Host) (data : list (list string)) :
  existsb (malformedRow h) data = false ->
  forall k records,
  exists rs,
    readRecords h k data records = Some (records ++ rs)%list /\
    map (fun r => Some (EmpID r)) rs =
      map (fun row => Number h (nth 0 row "")) (filter hasFourTokens data) /\
    map (fun r => Some (ProjectID r)) rs =
      map (fun row => Number h (nth 1 row "")) (filter hasFourTokens data).
Proof.
  induction data as [|row data IH]; intros H k records.
  - exists []. simpl. now rewrite app_nil_r.
  - cbn [existsb] in H. apply orb_false_elim in H. destruct H as [Hrow Hdata].
    destruct row as [|r0 [|r1 [|r2 [|r3 tl]]]]; try (simpl; now apply IH).
    change (filter hasFourTokens ((r0 :: r1 :: r2 :: r3 :: tl) :: data))
      with ((r0 :: r1 :: r2 :: r3 :: tl) :: filter hasFourTokens data).
    cbn [malformedRow] in Hrow.
    apply orb_false_elim in Hrow. destruct Hrow as [Hrow H3].
    apply orb_false_elim in Hrow. destruct Hrow as [Hrow H2].
    apply orb_false_elim in Hrow. destruct Hrow as [H0 H1].
    destruct (parseDate_not_null h 0 k r2 H2) as (f & k1 & E2).
    destruct (parseDate_not_null h 0 k1 r3 H3) as (t & k2 & E3).
    cbn [readRecords]. rewrite E2, E3.
    destruct (Number h r0) as [e|] eqn:E0; [|discriminate].
    destruct (Number h r1) as [p|] eqn:E1; [|discriminate].
    destruct (IH Hdata k2
                (records ++ [{| EmpID := e; ProjectID := p; DateFrom := f; DateTo := t |}])%list)
      as (rs & Hrs & Hemp & Hproj).
    exists ({| EmpID := e; ProjectID := p; DateFrom := f; DateTo := t |} :: rs).
    split; [now rewrite Hrs, <- app_assoc|].
    cbn [map nth EmpID ProjectID]. now rewrite E0, E1, Hemp, Hproj.
Qed.

(** X5.  A batch is rejected only for a malformed row.  When no row is
    malformed, the first loop returns one record for each row of four
    tokens or more, in the order of the rows, with the numbers of tokens 0
    and 1 as [EmpID] and [ProjectID]; [processData] then clears the error
    and leaves the upload flag alone. *)
Theorem well_formed_batch_accepted (h : Host) (st : AppState) (data : list (list string)) :
  existsb (malformedRow h) data = false ->
  (exists records,
     readRecords h 0 data [] = Some records /\
     map (fun r => Some (EmpID r)) records =
       map (fun row => Number h (nth 0 row "")) (filter hasFourTokens data) /\
     map (fun r => Some (ProjectID r)) records =
       map (fun row => Number h (nth 1 row "")) (filter hasFourTokens data)) /\
  error (processData h st data) = None /\
  fileUploaded (processData h st data) = fileUploaded st.
Proof.
  intros H.
  destruct (readRecords_well_formed h data H 0 []) as (rs & Hrs & Hemp & Hproj).
  split; [exists rs; auto|].
  unfold processData. rewrite Hrs. simpl.
  destruct (outerLoop rs ([], [])); split; reflexivity.
Qed.

Lemma well_formed_batch_accepted_witness :
  existsb (malformedRow RefHost.host) Sample.rows = false /\
  error (processData RefHost.host Sample.initial Sample.rows) = None.
Proof.
  assert (H : existsb (malformedRow RefHost.host) Sample.rows = false) by reflexivity.
  split; [exact H|].
  exact (proj1 (proj2 (well_formed_batch_accepted RefHost.host Sample.initial Sample.rows H))).
Defined.

(** ** Keys of the maps *)

Lemma uint_digits (u : Decimal.uint) :
  Str.allDigits (NilEmpty.string_of_uint u) = true.
Proof. induction u; simpl; auto. Qed.

(** The text of a number: decimal digits, at least one, after a minus sign
    when the number is negative. *)
Lemma ofNumber_shape (z : Z) :
  exists d, Str.allDigits d = true /\ d <> "" /\
            (Str.ofNumber z = d \/ Str.ofNumber z = String "-" d).
Proof.
  assert (Hu : forall u, u <> Decimal.Nil ->
                         NilZero.string_of_uint u = NilEmpty.string_of_uint u /\
                         NilEmpty.string_of_uint u <> "").
  { intros u Hne. destruct u; try congruence; split; try reflexivity; discriminate. }
  unfold Str.ofNumber. destruct z as [|p|p]; simpl.
  - exists "0". repeat split; [discriminate | now left].
  - destruct (Hu _ (Unsigned.to_uint_nonnil p)) as [E Hne].
    exists (NilEmpty.string_of_uint (Pos.to_uint p)).
    rewrite E. split; [apply uint_digits|]. split; [exact Hne | now left].
  - destruct (Hu _ (Unsigned.to_uint_nonnil p)) as [E Hne].
    exists (NilEmpty.string_of_uint (Pos.to_uint p)).
    rewrite E. split; [apply uint_digits|]. split; [exact Hne | now right].
Qed.

Lemma ofNumber_inj (a b : Z) : Str.ofNumber a = Str.ofNumber b -> a = b.
Proof.
  unfold Str.ofNumber. intros H.
  apply DecimalZ.to_int_inj.
  assert (Hi : forall z, NilZero.int_of_string (NilZero.string_of_int (Z.to_int z))
                         = Some (Z.to_int z)).
  { intros z. apply NilZero.isi; destruct z; simpl; try discriminate;
      intros E; injection E as E; exact (Unsigned.to_uint_nonnil _ E). }
  apply (f_equal NilZero.int_of_string) in H. rewrite !Hi in H. congruence.
Qed.

Lemma digits_then_dash (d d' r r' : string) :
  Str.allDigits d = true -> Str.allDigits d' = true ->
  d ++ String "-" r = d' ++ String "-" r' -> d = d' /\ r = r'.
Proof.
  revert d'. induction d as [|c d IH]; intros [|c' d'] Hd Hd' H; simpl in *.
  - injection H as ->. auto.
  - injection H as <- _. discriminate.
  - injection H as -> _. discriminate.
  - injection H as -> H.
    apply andb_prop in Hd, Hd'.
    destruct (IH d' (proj2 Hd) (proj2 Hd') H) as [-> ->]. auto.
Qed.

(** The text of a number, a dash and a rest can be read back in one way. *)
Lemma number_then_dash (a a' : Z) (r r' : string) :
  Str.ofNumber a ++ String "-" r = Str.ofNumber a' ++ String "-" r' ->
  a = a' /\ r = r'.
Proof.
  destruct (ofNumber_shape a) as (d & Hd & Hne & Ha).
  destruct (ofNumber_shape a') as (d' & Hd' & Hne' & Ha').
  intros H.
  assert (Hfirst : forall x rest, Str.allDigits x = true -> x <> "" ->
                                  forall y, x ++ rest <> String "-" y).
  { intros x rest Hx Hxne y E. destruct x as [|c x]; [congruence|].
    simpl in *. injection E as -> _. discriminate. }
  assert (Hgoal : Str.ofNumber a = Str.ofNumber a' /\ r = r').
  { destruct Ha as [Ea|Ea], Ha' as [Ea'|Ea']; rewrite Ea, Ea' in *.
    - destruct (digits_then_dash _ _ _ _ Hd Hd' H) as [-> ->]. auto.
    - exfalso. exact (Hfirst d _ Hd Hne _ H).
    - exfalso. symmetry in H. exact (Hfirst d' _ Hd' Hne' _ H).
    - simpl in H. injection H as H.
      destruct (digits_then_dash _ _ _ _ Hd Hd' H) as [-> ->]. auto. }
  destruct Hgoal as [E ->]. split; [now apply ofNumber_inj | reflexivity].
Qed.

(** X6.  The keys of the two maps determine what they are written from: two
    pairs with one key [emp1-emp2] are the same pair, and two triples with
    one key [emp1-emp2-projectId] are the same triple, negative numbers
    included. *)
Theorem keys_injective (a b c a' b' c' : Z) :
  (Str.ofNumber a ++ "-" ++ Str.ofNumber b = Str.ofNumber a' ++ "-" ++ Str.ofNumber b' ->
   a = a' /\ b = b') /\
  (Str.ofNumber a ++ "-" ++ Str.ofNumber b ++ "-" ++ Str.ofNumber c =
   Str.ofNumber a' ++ "-" ++ Str.ofNumber b' ++ "-" ++ Str.ofNumber c' ->
   a = a' /\ b = b' /\ c = c').
Proof.
  split; intros H.
  - apply number_then_dash in H. destruct H as [-> H].
    split; [reflexivity | now apply ofNumber_inj].
  - apply number_then_dash in H. destruct H as [-> H].
    apply number_then_dash in H. destruct H as [-> H].
    repeat split. now apply ofNumber_inj.
Qed.

Lemma keys_injective_witness :
  Str.ofNumber (-1) ++ "-" ++ Str.ofNumber (-2) = "-1--2" /\
  (-1 = -1 /\ -2 = -2).
Proof.
  split; [reflexivity|].
  exact (proj1 (keys_injective (-1) (-2) 0 (-1) (-2) 0) eq_refl).
Defined.

(** ** What the maps hold *)

Lemma pairKey_eqb (c : Contribution) (e1 e2 p : Z) :
  (pairKey c =? Str.ofNumber e1 ++ "-" ++ Str.ofNumber e2 ++ "-" ++ Str.ofNumber p)%string
  = sameTriple e1 e2 p c.
Proof.
  unfold sameTriple, pairKey.
  destruct (String.eqb_spec
              (Str.ofNumber (low c) ++ "-" ++ Str.ofNumber (high c) ++ "-"
                 ++ Str.ofNumber (project c))
              (Str.ofNumber e1 ++ "-" ++ Str.ofNumber e2 ++ "-" ++ Str.ofNumber p))
    as [E|N].
  - apply number_then_dash in E. destruct E as [-> E].
    apply number_then_dash in E. destruct E as [-> E].
    apply ofNumber_inj in E. subst. now rewrite !Z.eqb_refl.
  - symmetry. apply not_true_is_false. intros H.
    apply andb_prop in H. destruct H as [H H3].
    apply andb_prop in H. destruct H as [H1 H2].
    apply Z.eqb_eq in H1, H2, H3. apply N. now rewrite H1, H2, H3.
Qed.

Lemma totalKey_eqb (c : Contribution) (e1 e2 : Z) :
  (totalKey c =? Str.ofNumber e1 ++ "-" ++ Str.ofNumber e2)%string = samePair e1 e2 c.
Proof.
  unfold samePair, totalKey.
  destruct (String.eqb_spec
              (Str.ofNumber (low c) ++ "-" ++ Str.ofNumber (high c))
              (Str.ofNumber e1 ++ "-" ++ Str.ofNumber e2)) as [E|N].
  - apply number_then_dash in E. destruct E as [-> E].
    apply ofNumber_inj in E. subst. now rewrite !Z.eqb_refl.
  - symmetry. apply not_true_is_false. intros H.
    apply andb_prop in H. destruct H as [H1 H2].
    apply Z.eqb_eq in H1, H2. apply N. now rewrite H1, H2.
Qed.

Lemma tally_ext (sel sel' : Contribution -> bool) (cs : list Contribution) :
  (forall c, sel c = sel' c) -> forall init, tally sel cs init = tally sel' cs init.
Proof.
  intros H. unfold tally. induction cs as [|c cs IH]; intros init; simpl; [reflexivity|].
  now rewrite H, IH.
Qed.

Lemma tally_filter (sel : Contribution -> bool) (cs : list Contribution) :
  forall init,
    tally sel cs init =
    match filter sel cs with
    | [] => init
    | l => Some (match init with Some a => a | None => 0 end + sumDays l)
    end.
Proof.
  unfold tally. induction cs as [|c cs IH]; intros init; simpl; [reflexivity|].
  rewrite IH. destruct (sel c); [|reflexivity].
  destruct (filter sel cs) as [|c' l]; simpl; f_equal; lia.
Qed.

(** X7.  What is stored under the key of a triple [(e1, e2, p)] is read off
    the batch: nothing when no two records contribute to it, and otherwise
    the triple with the sum of the days of all the pairs of records that
    do.  Likewise for the map of the pairs, under the key of [(e1, e2)]. *)
Theorem maps_hold_the_sums (records : list EmployeeRecord) (e1 e2 p : Z) :
  JSMap.get (Str.ofNumber e1 ++ "-" ++ Str.ofNumber e2 ++ "-" ++ Str.ofNumber p)
            (fst (outerLoop records ([], []))) =
    match filter (sameTriple e1 e2 p) (contributions records) with
    | [] => None
    | cs => Some {| emp1 := e1; emp2 := e2; projectId := p; totalDaysWorked := sumDays cs |}
    end /\
  JSMap.get (Str.ofNumber e1 ++ "-" ++ Str.ofNumber e2)
            (snd (outerLoop records ([], []))) =
    match filter (samePair e1 e2) (contributions records) with
    | [] => None
    | cs => Some {| Total.emp1 := e1; Total.emp2 := e2; Total.totalDaysWorked := sumDays cs |}
    end.
Proof.
  split.
  - pose proof (pairMap_tally records
                  (Str.ofNumber e1 ++ "-" ++ Str.ofNumber e2 ++ "-" ++ Str.ofNumber p)) as Ht.
    rewrite (tally_ext _ (sameTriple e1 e2 p)) in Ht by (intros c; apply pairKey_eqb).
    rewrite tally_filter in Ht.
    destruct (JSMap.get _ (fst (outerLoop records ([], [])))) as [e|] eqn:E;
      destruct (filter (sameTriple e1 e2 p) (contributions records)) as [|c cs];
      try discriminate; [|reflexivity].
    injection Ht as Ht.
    apply get_In_entry in E.
    assert (Hok : Forall (pairEntryOk records) (fst (outerLoop records ([], [])))).
    { rewrite outerLoop_fold, fold_addBoth_fst.
      apply fold_addPair_entries; [apply contributions_canonical | constructor]. }
    rewrite Forall_forall in Hok. destruct (Hok _ E) as [Hkey _]. simpl in Hkey.
    apply number_then_dash in Hkey. destruct Hkey as [H1 Hkey].
    apply number_then_dash in Hkey. destruct Hkey as [H2 Hkey].
    apply ofNumber_inj in Hkey.
    destruct e as [x1 x2 x3 x4]; simpl in *. subst. do 2 f_equal; lia.
  - pose proof (pairMapTotal_tally records
                  (Str.ofNumber e1 ++ "-" ++ Str.ofNumber e2)) as Ht.
    rewrite (tally_ext _ (samePair e1 e2)) in Ht by (intros c; apply totalKey_eqb).
    rewrite tally_filter in Ht.
    destruct (JSMap.get _ (snd (outerLoop records ([], [])))) as [e|] eqn:E;
      destruct (filter (samePair e1 e2) (contributions records)) as [|c cs];
      try discriminate; [|reflexivity].
    injection Ht as Ht.
    apply get_In_entry in E.
    assert (Hok : Forall (totalEntryOk records) (snd (outerLoop records ([], [])))).
    { rewrite outerLoop_fold, fold_addBoth_snd.
      apply fold_addTotal_entries; [apply contributions_canonical | constructor]. }
    rewrite Forall_forall in Hok. destruct (Hok _ E) as [Hkey _]. simpl in Hkey.
    apply number_then_dash in Hkey. destruct Hkey as [H1 Hkey].
    apply ofNumber_inj in Hkey.
    destruct e as [x1 x2 x3]; simpl in *. subst. do 2 f_equal; lia.
Qed.

(** *** One step of the loops keeps the maps consistent *)

Section MapSums.
Context {V : Type}.
Variable f : V -> Z.
Variable sel : V -> bool.

Lemma get_None_keys (key : string) (m : JSMap.t V) :
  JSMap.get key m = None -> ~ In key (map fst m).
Proof.
  induction m as [|[k x] m IH]; simpl; [tauto|].
  destruct (String.eqb_spec k key) as [E|N]; [discriminate|].
  intros H [Hk|Hin]; [congruence | now apply IH].
Qed.

Lemma set_present (key : string) (v old : V) (m : JSMap.t V) :
  JSMap.get key m = Some old ->
  map fst (JSMap.set key v m) = map fst m /\
  fold_right (fun x acc => f x + acc) 0 (filter sel (JSMap.values (JSMap.set key v m))) =
  fold_right (fun x acc => f x + acc) 0 (filter sel (JSMap.values m))
    - (if sel old then f old else 0) + (if sel v then f v else 0).
Proof.
  induction m as [|[k x] m IH]; simpl; [discriminate|].
  destruct (k =? key)%string.
  - intros [= ->]. split; [reflexivity|]. simpl.
    destruct (sel old), (sel v); simpl; lia.
  - intros H. destruct (IH H) as [Hk Hs]. split; [simpl; now rewrite Hk|].
    simpl. destruct (sel x); simpl; rewrite Hs; lia.
Qed.

Lemma set_absent (key : string) (v : V) (m : JSMap.t V) :
  JSMap.get key m = None ->
  JSMap.set key v m = (m ++ [(key, v)])%list.
Proof.
  induction m as [|[k x] m IH]; simpl; [reflexivity|].
  destruct (k =? key)%string; [discriminate|].
  intros H. now rewrite (IH H).
Qed.

Lemma sum_app (l l' : list V) :
  fold_right (fun x acc => f x + acc) 0 (filter sel (l ++ l')) =
  fold_right (fun x acc => f x + acc) 0 (filter sel l)
    + fold_right (fun x acc => f x + acc) 0 (filter sel l').
Proof.
  induction l as [|x l IH]; simpl; [reflexivity|].
  destruct (sel x); simpl; rewrite IH; lia.
Qed.

End MapSums.

Lemma NoDup_keys_set {V : Type} (key : string) (v : V) (m : JSMap.t V) :
  NoDup (map fst m) -> NoDup (map fst (JSMap.set key v m)).
Proof.
  intros H. destruct (JSMap.get key m) as [old|] eqn:E.
  - now rewrite (proj1 (set_present (fun _ => 0) (fun _ => true) key v old m E)).
  - rewrite (set_absent key v m E), map_app. simpl.
    apply NoDup_app_remove_l with (l := []). simpl.
    apply Permutation_NoDup with (l := key :: map fst m).
    + apply Permutation_cons_append.
    + constructor; [now apply get_None_keys | exact H].
Qed.

Lemma addPair_sum (records : list EmployeeRecord) (pm : JSMap.t PairProjectDays)
  (c : Contribution) (e1 e2 : Z) :
  Forall (pairEntryOk records) pm ->
  sumWorked (filter (ofPair e1 e2) (JSMap.values (addPair c pm))) =
  sumWorked (filter (ofPair e1 e2) (JSMap.values pm))
    + (if samePair e1 e2 c then days c else 0).
Proof.
  intros Hok. unfold addPair, sumWorked.
  destruct (JSMap.get (pairKey c) pm) as [existing|] eqn:E.
  - rewrite (proj2 (set_present totalDaysWorked (ofPair e1 e2) _
                      (addDays existing (days c)) existing pm E)).
    apply get_In_entry in E. rewrite Forall_forall in Hok.
    destruct (Hok _ E) as [Hkey _]. simpl in Hkey. unfold pairKey in Hkey.
    apply number_then_dash in Hkey. destruct Hkey as [H1 Hkey].
    apply number_then_dash in Hkey. destruct Hkey as [H2 _].
    unfold ofPair, samePair. simpl. rewrite <- H1, <- H2.
    destruct ((low c =? e1) && (high c =? e2)); lia.
  - rewrite (set_absent _ _ pm E). unfold JSMap.values.
    rewrite map_app, (sum_app totalDaysWorked (ofPair e1 e2)). simpl.
    unfold ofPair, samePair. simpl.
    destruct ((low c =? e1) && (high c =? e2)); simpl; lia.
Qed.

Lemma addTotal_sum (records : list EmployeeRecord) (pt : JSMap.t Total.PairTotalDays)
  (c : Contribution) (e1 e2 : Z) :
  Forall (totalEntryOk records) pt ->
  sumTotals (filter (ofPairTotal e1 e2) (JSMap.values (addTotal c pt))) =
  sumTotals (filter (ofPairTotal e1 e2) (JSMap.values pt))
    + (if samePair e1 e2 c then days c else 0).
Proof.
  intros Hok. unfold addTotal, sumTotals.
  destruct (JSMap.get (totalKey c) pt) as [existing|] eqn:E.
  - rewrite (proj2 (set_present Total.totalDaysWorked (ofPairTotal e1 e2) _
                      (Total.addDays existing (days c)) existing pt E)).
    apply get_In_entry in E. rewrite Forall_forall in Hok.
    destruct (Hok _ E) as [Hkey _]. simpl in Hkey. unfold totalKey in Hkey.
    apply number_then_dash in Hkey. destruct Hkey as [H1 Hkey].
    apply ofNumber_inj in Hkey.
    unfold ofPairTotal, samePair. simpl. rewrite <- H1, <- Hkey.
    destruct ((low c =? e1) && (high c =? e2)); lia.
  - rewrite (set_absent _ _ pt E). unfold JSMap.values.
    rewrite map_app, (sum_app Total.totalDaysWorked (ofPairTotal e1 e2)). simpl.
    unfold ofPairTotal, samePair. simpl.
    destruct ((low c =? e1) && (high c =? e2)); simpl; lia.
Qed.

Lemma addBoth_consistent (records : list EmployeeRecord) (maps : Maps) (c : Contribution) :
  consistent records maps ->
  canonical records (low c) (high c) -> 1 <= days c ->
  consistent records (addBoth maps c).
Proof.
  intros (Hpm & Hpt & Npm & Npt & Dpm & Dpt & Hsum) Hc Hd.
  destruct maps as [pm pt]. simpl in *.
  unfold consistent, addBoth. simpl.
  split; [|split; [|split; [|split; [|split; [|split]]]]].
  - apply (fold_addPair_entries records [c]);
      [constructor; [exact Hc | constructor] | exact Hpm].
  - apply (fold_addTotal_entries records [c]);
      [constructor; [exact Hc | constructor] | exact Hpt].
  - unfold addPair. destruct (JSMap.get (pairKey c) pm); now apply NoDup_keys_set.
  - unfold addTotal. destruct (JSMap.get (totalKey c) pt); now apply NoDup_keys_set.
  - unfold addPair. destruct (JSMap.get (pairKey c) pm) as [existing|] eqn:E;
      (apply Forall_set; [|exact Dpm]); simpl; [|exact Hd].
    apply get_In_entry in E. rewrite Forall_forall in Dpm.
    specialize (Dpm _ E). simpl in Dpm. lia.
  - unfold addTotal. destruct (JSMap.get (totalKey c) pt) as [existing|] eqn:E;
      (apply Forall_set; [|exact Dpt]); simpl; [|exact Hd].
    apply get_In_entry in E. rewrite Forall_forall in Dpt.
    specialize (Dpt _ E). simpl in Dpt. lia.
  - intros e1 e2.
    rewrite (addPair_sum records pm c e1 e2 Hpm), (addTotal_sum records pt c e1 e2 Hpt).
    now rewrite Hsum.
Qed.

Lemma contribution_days (p1 p2 : EmployeeRecord) (c : Contribution) :
  contribution p1 p2 = Some c -> 1 <= days c.
Proof.
  unfold contribution.
  destruct ((ProjectID p1 =? ProjectID p2) && negb (EmpID p1 =? EmpID p2)); [|discriminate].
  destruct (Z.leb_spec (Z.max (DateFrom p1) (DateFrom p2)) (Z.min (DateTo p1) (DateTo p2)))
    as [Hle|]; [|discriminate].
  intros [= <-]. simpl.
  assert (0 <= (Z.min (DateTo p1) (DateTo p2) - Z.max (DateFrom p1) (DateFrom p2)) / msPerDay)
    by (apply Z.div_pos; [lia | reflexivity]).
  lia.
Qed.

Lemma contributions_days (records : list EmployeeRecord) :
  Forall (fun c => 1 <= days c) (contributions records).
Proof.
  induction records as [|p1 rest IH]; simpl; [constructor|].
  apply Forall_app. split; [|exact IH].
  apply Forall_forall. intros c Hc.
  apply in_flat_map in Hc. destruct Hc as (p2 & _ & Hc).
  destruct (contribution p1 p2) as [c'|] eqn:E; simpl in Hc; [|contradiction].
  destruct Hc as [->|[]]. exact (contribution_days _ _ _ E).
Qed.

(** The maps of a batch are consistent. *)
Lemma outerLoop_consistent (records : list EmployeeRecord) :
  consistent records (outerLoop records ([], [])).
Proof.
  rewrite outerLoop_fold.
  assert (Hall : Forall (fun c => canonical records (low c) (high c) /\ 1 <= days c)
                        (contributions records)).
  { pose proof (contributions_canonical records) as H1.
    pose proof (contributions_days records) as H2.
    rewrite Forall_forall in *. intros c Hc. split; auto. }
  assert (Hinit : consistent records ([], [])).
  { unfold consistent. simpl. repeat split; constructor. }
  revert Hinit. generalize (([], []) : Maps).
  induction Hall as [|c cs [Hc Hd] _ IH]; intros maps Hmaps; simpl; [exact Hmaps|].
  apply IH. now apply addBoth_consistent.
Qed.

Lemma unique_pair_sum (l : list Total.PairTotalDays) (ptd : Total.PairTotalDays) :
  NoDup (map (fun t => (Total.emp1 t, Total.emp2 t)) l) -> In ptd l ->
  sumTotals (filter (ofPairTotal (Total.emp1 ptd) (Total.emp2 ptd)) l)
  = Total.totalDaysWorked ptd.
Proof.
  induction l as [|x l IH]; simpl; [tauto|].
  intros Hnd Hin. inversion Hnd as [|? ? Hx Hl]; subst.
  assert (Hrest : forall t, In t l -> ofPairTotal (Total.emp1 x) (Total.emp2 x) t = false).
  { intros t Ht. unfold ofPairTotal. apply not_true_is_false. intros H.
    apply andb_prop in H. destruct H as [H1 H2]. apply Z.eqb_eq in H1, H2.
    apply Hx. apply in_map_iff. exists t. split; [congruence | exact Ht]. }
  destruct Hin as [->|Hin].
  - unfold ofPairTotal at 1. rewrite !Z.eqb_refl. simpl.
    assert (Hnil : filter (ofPairTotal (Total.emp1 ptd) (Total.emp2 ptd)) l = []).
    { clear IH Hnd Hx Hl. induction l as [|y l IHl]; [reflexivity|].
      simpl. rewrite (Hrest y (or_introl eq_refl)).
      apply IHl. intros t Ht. apply Hrest. now right. }
    rewrite Hnil. simpl. lia.
  - assert (Hdiff : ofPairTotal (Total.emp1 ptd) (Total.emp2 ptd) x = false).
    { pose proof (Hrest ptd Hin) as H. unfold ofPairTotal in *.
      rewrite (Z.eqb_sym (Total.emp1 x)), (Z.eqb_sym (Total.emp2 x)). exact H. }
    rewrite Hdiff. now apply IH.
Qed.

Lemma entry_keys (records : list EmployeeRecord) (pm : JSMap.t PairProjectDays) :
  Forall (pairEntryOk records) pm ->
  map fst pm =
  map (fun t => Str.ofNumber (fst (fst t)) ++ "-" ++ Str.ofNumber (snd (fst t)) ++ "-"
                  ++ Str.ofNumber (snd t))
      (map (fun e => (emp1 e, emp2 e, projectId e)) (JSMap.values pm)).
Proof.
  induction 1 as [|[k e] pm [Hk _] _ IH]; simpl; [reflexivity|].
  simpl in Hk. now rewrite Hk, IH.
Qed.

Lemma total_entry_keys (records : list EmployeeRecord) (pt : JSMap.t Total.PairTotalDays) :
  Forall (totalEntryOk records) pt ->
  map fst pt =
  map (fun t => Str.ofNumber (fst t) ++ "-" ++ Str.ofNumber (snd t))
      (map (fun e => (Total.emp1 e, Total.emp2 e)) (JSMap.values pt)).
Proof.
  induction 1 as [|[k e] pt [Hk _] _ IH]; simpl; [reflexivity|].
  simpl in Hk. now rewrite Hk, IH.
Qed.

Lemma pairs_distinct (records : list EmployeeRecord) :
  NoDup (map (fun e => (emp1 e, emp2 e, projectId e))
             (JSMap.values (fst (outerLoop records ([], []))))) /\
  NoDup (map (fun e => (Total.emp1 e, Total.emp2 e))
             (JSMap.values (snd (outerLoop records ([], []))))).
Proof.
  destruct (outerLoop_consistent records) as (Hpm & Hpt & Npm & Npt & _).
  split.
  - rewrite (entry_keys records _ Hpm) in Npm. exact (NoDup_map_inv _ _ Npm).
  - rewrite (total_entry_keys records _ Hpt) in Npt. exact (NoDup_map_inv _ _ Npt).
Qed.

Lemma Forall_values {V : Type} (P : V -> Prop) (m : JSMap.t V) :
  Forall (fun entry => P (snd entry)) m -> Forall P (JSMap.values m).
Proof. unfold JSMap.values. induction 1; simpl; constructor; auto. Qed.

(** X8.  After the loops, no two entries of the first map have the same
    pair and project, no two entries of the second map have the same pair,
    and every total in either map is at least one day. *)
Theorem entries_distinct_and_positive (records : list EmployeeRecord) :
  NoDup (map (fun e => (emp1 e, emp2 e, projectId e))
             (JSMap.values (fst (outerLoop records ([], []))))) /\
  NoDup (map (fun e => (Total.emp1 e, Total.emp2 e))
             (JSMap.values (snd (outerLoop records ([], []))))) /\
  Forall (fun e => 1 <= totalDaysWorked e) (JSMap.values (fst (outerLoop records ([], [])))) /\
  Forall (fun e => 1 <= Total.totalDaysWorked e)
         (JSMap.values (snd (outerLoop records ([], [])))).
Proof.
  destruct (pairs_distinct records) as [H1 H2].
  destruct (outerLoop_consistent records) as (_ & _ & _ & _ & Dpm & Dpt & _).
  repeat split; try assumption; now apply Forall_values.
Qed.

Lemma pair_total_sum (records : list EmployeeRecord) (ptd : Total.PairTotalDays) :
  In ptd (JSMap.values (snd (outerLoop records ([], [])))) ->
  sumWorked (filter (ofPair (Total.emp1 ptd) (Total.emp2 ptd))
                    (JSMap.values (fst (outerLoop records ([], [])))))
  = Total.totalDaysWorked ptd.
Proof.
  intros Hin.
  destruct (outerLoop_consistent records) as (_ & _ & _ & _ & _ & _ & Hsum).
  rewrite Hsum. apply unique_pair_sum; [apply pairs_distinct | exact Hin].
Qed.

(** X9.  The total of a pair in the second map is the sum of the totals of
    that pair over its projects in the first map. *)
Theorem pair_total_is_sum_over_projects (records : list EmployeeRecord) :
  Forall (fun ptd =>
            Total.totalDaysWorked ptd =
            sumWorked (filter (ofPair (Total.emp1 ptd) (Total.emp2 ptd))
                              (JSMap.values (fst (outerLoop records ([], []))))))
         (JSMap.values (snd (outerLoop records ([], [])))).
Proof.
  apply Forall_forall. intros ptd Hin. symmetry. now apply pair_total_sum.
Qed.

(** ** What is shown *)

Lemma selectTop_max (pairMap : JSMap.t PairProjectDays)
  (pairMapTotal : JSMap.t Total.PairTotalDays) (m : Z) :
  MathMax (map (fun member => Total.totalDaysWorked member) (JSMap.values pairMapTotal))
    = Some m ->
  selectTop pairMap pairMapTotal =
  filter (fun ppd =>
            existsb (fun ptd => (Total.totalDaysWorked ptd =? m)
                                && ofPairTotal (emp1 ppd) (emp2 ppd) ptd)
                    (JSMap.values pairMapTotal))
         (JSMap.values pairMap).
Proof.
  intros Hm. unfold selectTop. rewrite Hm.
  apply filter_ext. intros ppd. rewrite existsb_filter. reflexivity.
Qed.

Lemma selectTop_In (pairMap : JSMap.t PairProjectDays)
  (pairMapTotal : JSMap.t Total.PairTotalDays) (ppd : PairProjectDays) :
  In ppd (selectTop pairMap pairMapTotal) ->
  exists m ptd,
    MathMax (map (fun member => Total.totalDaysWorked member) (JSMap.values pairMapTotal))
      = Some m /\
    In ppd (JSMap.values pairMap) /\ In ptd (JSMap.values pairMapTotal) /\
    Total.totalDaysWorked ptd = m /\
    Total.emp1 ptd = emp1 ppd /\ Total.emp2 ptd = emp2 ppd.
Proof.
  intros Hin.
  destruct (MathMax (map (fun member => Total.totalDaysWorked member)
                         (JSMap.values pairMapTotal))) as [m|] eqn:Hm.
  - rewrite (selectTop_max _ _ m Hm) in Hin.
    apply filter_In in Hin. destruct Hin as [Hin Hex].
    apply existsb_exists in Hex. destruct Hex as (ptd & Hptd & H).
    apply andb_prop in H. destruct H as [H0 H].
    apply andb_prop in H. destruct H as [H1 H2].
    apply Z.eqb_eq in H0, H1, H2.
    exists m, ptd. auto 10.
  - exfalso. unfold selectTop in Hin. rewrite Hm in Hin.
    apply filter_In in Hin. destruct Hin as [_ Hex].
    apply existsb_exists in Hex. destruct Hex as (ptd & Hptd & _).
    apply filter_In in Hptd. destruct Hptd as [_ H]. discriminate.
Qed.

Lemma sumWorked_positive (l : list PairProjectDays) :
  0 < sumWorked l -> exists ppd, In ppd l.
Proof. destruct l as [|ppd l]; simpl; [lia | eauto]. Qed.

Lemma totals_positive (records : list EmployeeRecord) (ptd : Total.PairTotalDays) :
  In ptd (JSMap.values (snd (outerLoop records ([], [])))) ->
  1 <= Total.totalDaysWorked ptd.
Proof.
  destruct (outerLoop_consistent records) as (_ & _ & _ & _ & _ & Dpt & _).
  pose proof (Forall_values (fun e => 1 <= Total.totalDaysWorked e) _ Dpt) as H.
  rewrite Forall_forall in H. apply H.
Qed.

(** X10.  [processData] ends with no row to show exactly when no two
    records of the batch contribute: as soon as one pair of records
    overlaps, a row is selected. *)
Theorem no_rows_iff_no_overlap (records : list EmployeeRecord) :
  selectTop (fst (outerLoop records ([], []))) (snd (outerLoop records ([], []))) = []
  <-> contributions records = [].
Proof.
  split.
  - intros Hsel.
    destruct (contributions records) as [|c cs] eqn:Ecs; [reflexivity|]. exfalso.
    set (pm := fst (outerLoop records ([], []))) in *.
    set (pt := snd (outerLoop records ([], []))) in *.
    assert (Hpt : JSMap.values pt <> []).
    { pose proof (pairMapTotal_tally records (totalKey c)) as Ht.
      rewrite tally_filter, Ecs in Ht. simpl in Ht.
      rewrite String.eqb_refl in Ht. fold pt in Ht.
      destruct pt; [discriminate Ht | discriminate]. }
    destruct (MathMax_nonempty
                (map (fun member => Total.totalDaysWorked member) (JSMap.values pt)))
      as (m & Hm & Hin & _).
    { destruct (JSMap.values pt); [congruence | discriminate]. }
    apply in_map_iff in Hin. destruct Hin as (ptd & Hptd & Hin).
    pose proof (pair_total_sum records ptd Hin) as Hsum. fold pm in Hsum.
    pose proof (totals_positive records ptd Hin) as Hpos.
    destruct (sumWorked_positive _ ltac:(rewrite Hsum; lia)) as (ppd & Hppd).
    apply filter_In in Hppd. destruct Hppd as [Hppd Hpair].
    assert (Hshown : In ppd (selectTop pm pt)).
    { rewrite (selectTop_max pm pt m Hm). apply filter_In. split; [exact Hppd|].
      apply existsb_exists. exists ptd. split; [exact Hin|].
      unfold ofPair in Hpair. apply andb_prop in Hpair. destruct Hpair as [H1 H2].
      apply Z.eqb_eq in H1, H2. unfold ofPairTotal.
      now rewrite Hptd, H1, H2, !Z.eqb_refl. }
    rewrite Hsel in Hshown. exact Hshown.
  - intros Ecs. rewrite outerLoop_fold, Ecs. reflexivity.
Qed.

(** X11.  The rows shown for one pair add up to the greatest total: for
    every selected row, the days of the selected rows with its pair of
    employees sum to the maximum over all pairs. *)
Theorem shown_days_add_up (records : list EmployeeRecord) :
  let pairMap := fst (outerLoop records ([], [])) in
  let pairMapTotal := snd (outerLoop records ([], [])) in
  Forall (fun ppd =>
            MathMax (map (fun member => Total.totalDaysWorked member)
                         (JSMap.values pairMapTotal)) =
            Some (sumWorked (filter (ofPair (emp1 ppd) (emp2 ppd))
                                    (selectTop pairMap pairMapTotal))))
         (selectTop pairMap pairMapTotal).
Proof.
  intros pm pt. apply Forall_forall. intros ppd Hin.
  destruct (selectTop_In pm pt ppd Hin) as (m & ptd & Hm & Hppd & Hptd & Hmax & H1 & H2).
  rewrite Hm. f_equal.
  rewrite (selectTop_max pm pt m Hm).
  assert (Hf : forall l,
             filter (ofPair (emp1 ppd) (emp2 ppd))
               (filter (fun ppd0 =>
                          existsb (fun ptd0 => (Total.totalDaysWorked ptd0 =? m)
                                               && ofPairTotal (emp1 ppd0) (emp2 ppd0) ptd0)
                                  (JSMap.values pt)) l)
             = filter (ofPair (emp1 ppd) (emp2 ppd)) l).
  { induction l as [|x l IH]; [reflexivity|]. simpl.
    destruct (ofPair (emp1 ppd) (emp2 ppd) x) eqn:Ex.
    - assert (Hx : existsb (fun ptd0 => (Total.totalDaysWorked ptd0 =? m)
                                         && ofPairTotal (emp1 x) (emp2 x) ptd0)
                           (JSMap.values pt) = true).
      { apply existsb_exists. exists ptd. split; [exact Hptd|].
        unfold ofPair in Ex. apply andb_prop in Ex. destruct Ex as [E1 E2].
        apply Z.eqb_eq in E1, E2. unfold ofPairTotal.
        now rewrite Hmax, H1, H2, E1, E2, !Z.eqb_refl. }
      rewrite Hx. simpl. now rewrite Ex, IH.
    - destruct (existsb _ (JSMap.values pt)); simpl; rewrite ?Ex; exact IH. }
  rewrite Hf, <- H1, <- H2.
  pose proof (pair_total_sum records ptd Hptd) as Hs. fold pm in Hs.
  rewrite Hs. now symmetry.
Qed.

(** ** The other date patterns *)

Lemma number_twoChars (h : Host) (a b : ascii) :
  Str.isDigit a = true -> Str.isDigit b = true ->
  Number h (twoChars a b) = Some (Str.decimalValue (twoChars a b)) /\
  0 <= Str.decimalValue (twoChars a b) <= 99.
Proof.
  intros Ha Hb.
  pose proof (proj1 (digit_facts a Ha)). pose proof (proj1 (digit_facts b Hb)).
  split.
  - apply Number_digits; [simpl; now rewrite Ha, Hb | simpl; lia].
  - unfold twoChars, Str.decimalValue. cbn [Str.decimalFrom]. lia.
Qed.

Lemma number_fourChars (h : Host) (a b c d : ascii) :
  Str.isDigit a = true -> Str.isDigit b = true ->
  Str.isDigit c = true -> Str.isDigit d = true ->
  Number h (fourChars a b c d) = Some (Str.decimalValue (fourChars a b c d)) /\
  0 <= Str.decimalValue (fourChars a b c d) <= 9999.
Proof.
  intros Ha Hb Hc Hd.
  pose proof (proj1 (digit_facts a Ha)). pose proof (proj1 (digit_facts b Hb)).
  pose proof (proj1 (digit_facts c Hc)). pose proof (proj1 (digit_facts d Hd)).
  split.
  - apply Number_digits; [simpl; now rewrite Ha, Hb, Hc, Hd | simpl; lia].
  - unfold fourChars, Str.decimalValue. cbn [Str.decimalFrom]. lia.
Qed.

Lemma isoShape_inv (s : string) :
  Regex.test isoShape s = true ->
  exists c0 c1 c2 c3 c5 c6 c8 c9,
    s = isoToken c0 c1 c2 c3 c5 c6 c8 c9 /\
    Forall (fun c => Str.isDigit c = true) [c0; c1; c2; c3; c5; c6; c8; c9].
Proof.
  unfold isoShape.
  destruct s as [|c0 [|c1 [|c2 [|c3 [|c4 [|c5 [|c6 [|c7 [|c8 [|c9 [|c10 s]]]]]]]]]]];
    cbn [Regex.test Regex.matchDigits]; shape_cases.
  intros _.
  apply Ascii.eqb_eq in L, L0. subst c4 c7.
  exists c0, c1, c2, c3, c5, c6, c8, c9.
  split; [reflexivity|]. repeat constructor; assumption.
Qed.

Lemma dashShape_inv (s : string) :
  Regex.test dashShape s = true ->
  exists c0 c1 c3 c4 c6 c7 c8 c9,
    s = dashToken c0 c1 c3 c4 c6 c7 c8 c9 /\
    Forall (fun c => Str.isDigit c = true) [c0; c1; c3; c4; c6; c7; c8; c9].
Proof.
  unfold dashShape.
  destruct s as [|c0 [|c1 [|c2 [|c3 [|c4 [|c5 [|c6 [|c7 [|c8 [|c9 [|c10 s]]]]]]]]]]];
    cbn [Regex.test Regex.matchDigits]; shape_cases.
  intros _.
  apply Ascii.eqb_eq in L, L0. subst c2 c5.
  exists c0, c1, c3, c4, c6, c7, c8, c9.
  split; [reflexivity|]. repeat constructor; assumption.
Qed.

Section DashedDates.
Variable h : Host.
Variables a b c d e f g i : ascii.
Hypothesis digits : Forall (fun x => Str.isDigit x = true) [a; b; c; d; e; f; g; i].

Lemma iso_split :
  Str.split "-" (isoToken a b c d e f g i) = [fourChars a b c d; twoChars e f; twoChars g i].
Proof.
  repeat match goal with
         | H : Forall _ (_ :: _) |- _ => inversion H; clear H; subst
         end.
  unfold isoToken, twoChars, fourChars. cbn [Str.split String.append].
  repeat match goal with
         | H : Str.isDigit ?x = true |- _ =>
             let E := fresh in
             destruct (digit_facts x H) as (_ & _ & E & _); rewrite E; clear H
         end.
  reflexivity.
Qed.

Lemma dash_split :
  Str.split "-" (dashToken a b c d e f g i) = [twoChars a b; twoChars c d; fourChars e f g i].
Proof.
  repeat match goal with
         | H : Forall _ (_ :: _) |- _ => inversion H; clear H; subst
         end.
  unfold dashToken, twoChars, fourChars. cbn [Str.split String.append].
  repeat match goal with
         | H : Str.isDigit ?x = true |- _ =>
             let E := fresh in
             destruct (digit_facts x H) as (_ & _ & E & _); rewrite E; clear H
         end.
  reflexivity.
Qed.

Lemma dash_not_iso_nor_slash :
  Regex.test isoShape (dashToken a b c d e f g i) = false /\
  Regex.test slashShape (dashToken a b c d e f g i) = false.
Proof.
  inversion digits as [|? ? D0 digits']; subst.
  inversion digits' as [|? ? D1 _]; subst.
  unfold dashToken, twoChars, isoShape, slashShape.
  cbn [Regex.test Regex.matchDigits String.append]. now rewrite D0, D1.
Qed.

End DashedDates.

(** On a token of the shape [dddd-dd-dd] the loop stops at the first
    pattern. *)
Lemma tryPatterns_iso (h : Host) (s : string) :
  Regex.test isoShape s = true ->
  exists t,
    tryPatterns h datePatterns s = Some t /\
    JSDate.construct h (Some (Str.decimalValue (substring 0 4 s)))
                       (Some (Str.decimalValue (substring 5 2 s) - 1))
                       (Some (Str.decimalValue (substring 8 2 s))) = Some t.
Proof.
  intros H.
  destruct (isoShape_inv s H) as (a & b & c & d & e & f & g & i & -> & Hd).
  pose proof (iso_split _ _ _ _ _ _ _ _ Hd) as Hsplit.
  repeat match goal with
         | H : Forall _ (_ :: _) |- _ => inversion H; clear H; subst
         end.
  destruct (number_fourChars h a b c d) as (Ny & By); try assumption.
  destruct (number_twoChars h e f) as (Nm & Bm); try assumption.
  destruct (number_twoChars h g i) as (Nd & Bd); try assumption.
  destruct (construct_valid h (Str.decimalValue (fourChars a b c d))
              (Str.decimalValue (twoChars e f) - 1)
              (Str.decimalValue (twoChars g i))) as (t & Ht); try lia.
  exists t. split; [|exact Ht].
  cbn [datePatterns tryPatterns].
  unfold isoShape in H. rewrite H, Hsplit.
  cbn [NumberAt nth_error]. rewrite Ny, Nm, Nd.
  cbn [pred1 option_map]. now rewrite Ht.
Qed.

(** On a token of the shape [dd-dd-dddd] the loop stops at the third
    pattern. *)
Lemma tryPatterns_dash (h : Host) (s : string) :
  Regex.test dashShape s = true ->
  exists t,
    tryPatterns h datePatterns s = Some t /\
    JSDate.construct h (Some (Str.decimalValue (substring 6 4 s)))
                       (Some (Str.decimalValue (substring 3 2 s) - 1))
                       (Some (Str.decimalValue (substring 0 2 s))) = Some t.
Proof.
  intros H.
  destruct (dashShape_inv s H) as (a & b & c & d & e & f & g & i & -> & Hd).
  pose proof (dash_split _ _ _ _ _ _ _ _ Hd) as Hsplit.
  destruct (dash_not_iso_nor_slash _ _ _ _ _ _ _ _ Hd) as [Hiso Hslash].
  repeat match goal with
         | H : Forall _ (_ :: _) |- _ => inversion H; clear H; subst
         end.
  destruct (number_twoChars h a b) as (Nd & Bd); try assumption.
  destruct (number_twoChars h c d) as (Nm & Bm); try assumption.
  destruct (number_fourChars h e f g i) as (Ny & By); try assumption.
  destruct (construct_valid h (Str.decimalValue (fourChars e f g i))
              (Str.decimalValue (twoChars c d) - 1)
              (Str.decimalValue (twoChars a b))) as (t & Ht); try lia.
  exists t. split; [|exact Ht].
  cbn [datePatterns tryPatterns].
  unfold isoShape in Hiso. unfold slashShape in Hslash. unfold dashShape in H.
  rewrite Hiso, Hslash, H, Hsplit.
  cbn [NumberAt nth_error]. rewrite Ny, Nm, Nd.
  cbn [pred1 option_map]. now rewrite Ht.
Qed.

Lemma parseDate_matched (h : Host) (k : nat) (tok : string) (shape : Regex.regex) (t : Z) :
  Regex.test shape (Str.trim tok) = true ->
  (forall s, Regex.test shape s = true -> (10 <= String.length s)%nat) ->
  tryPatterns h datePatterns (Str.trim tok) = Some t ->
  parseDate h k tok = (Some t, k).
Proof.
  intros Hm Hlen Ht. apply parseDate_of_pattern; [|exact Ht].
  destruct ((tok =? "")%string || (Str.toLowerCase tok =? "null")%string) eqn:E;
    [|reflexivity].
  apply today_tokens_short in E. specialize (Hlen _ Hm). lia.
Qed.

(** X12.  A token whose trimmed text has the shape [dddd-dd-dd] is read
    year, month, day: [parseDate] returns the valid date
    [new Date(yyyy, MM - 1, dd)] read off the positions of the text, and
    the free-form parser is not asked. *)
Theorem iso_dates_year_first (h : Host) (k : nat) (tok : string) :
  let s := Str.trim tok in
  Regex.test isoShape s = true ->
  exists t,
    parseDate h k tok = (Some t, k) /\
    JSDate.construct h (Some (Str.decimalValue (substring 0 4 s)))
                       (Some (Str.decimalValue (substring 5 2 s) - 1))
                       (Some (Str.decimalValue (substring 8 2 s))) = Some t.
Proof.
  intros s H. destruct (tryPatterns_iso h s H) as (t & Ht & Hc).
  exists t. split; [|exact Hc].
  apply (parseDate_matched h k tok isoShape t H); [|exact Ht].
  intros x Hx. destruct (isoShape_inv x Hx) as (? & ? & ? & ? & ? & ? & ? & ? & -> & _).
  simpl. lia.
Qed.

Lemma iso_dates_year_first_witness :
  Regex.test isoShape (Str.trim "2024-02-29") = true /\
  parseDate RefHost.host 0 "2024-02-29" = (Some (Sample.day 2024 2 29), 0%nat).
Proof.
  assert (H : Regex.test isoShape (Str.trim "2024-02-29") = true) by reflexivity.
  split; [exact H|].
  destruct (iso_dates_year_first RefHost.host 0%nat "2024-02-29" H) as (t & Hp & Hc).
  rewrite Hp. f_equal. rewrite <- Hc. reflexivity.
Defined.

(** X13.  A token whose trimmed text has the shape [dd-dd-dddd] is read
    day, month, year: [parseDate] returns the valid date
    [new Date(yyyy, MM - 1, dd)] with the day taken from the first two
    digits. *)
Theorem dash_dates_day_first (h : Host) (k : nat) (tok : string) :
  let s := Str.trim tok in
  Regex.test dashShape s = true ->
  exists t,
    parseDate h k tok = (Some t, k) /\
    JSDate.construct h (Some (Str.decimalValue (substring 6 4 s)))
                       (Some (Str.decimalValue (substring 3 2 s) - 1))
                       (Some (Str.decimalValue (substring 0 2 s))) = Some t.
Proof.
  intros s H. destruct (tryPatterns_dash h s H) as (t & Ht & Hc).
  exists t. split; [|exact Hc].
  apply (parseDate_matched h k tok dashShape t H); [|exact Ht].
  intros x Hx. destruct (dashShape_inv x Hx) as (? & ? & ? & ? & ? & ? & ? & ? & -> & _).
  simpl. lia.
Qed.

Lemma dash_dates_day_first_witness :
  Regex.test dashShape (Str.trim "05-01-2024") = true /\
  parseDate RefHost.host 0 "05-01-2024" = (Some (Sample.day 2024 1 5), 0%nat).
Proof.
  assert (H : Regex.test dashShape (Str.trim "05-01-2024") = true) by reflexivity.
  split; [exact H|].
  destruct (dash_dates_day_first RefHost.host 0%nat "05-01-2024" H) as (t & Hp & Hc).
  rewrite Hp. f_equal. rewrite <- Hc. reflexivity.
Defined.

(** The loop over the patterns gives up only on a text that matches none of
    them. *)
Lemma tryPatterns_None_iff (h : Host) (s : string) :
  tryPatterns h datePatterns s = None <->
  existsb (fun pat => Regex.test (fst pat) s) datePatterns = false.
Proof.
  split.
  - intros Hnone. cbn [existsb datePatterns fst].
    fold isoShape slashShape dashShape.
    destruct (Regex.test isoShape s) eqn:Ei.
    { destruct (tryPatterns_iso h s Ei) as (t & Ht & _). congruence. }
    destruct (Regex.test slashShape s) eqn:Es.
    { destruct (tryPatterns_slash h s (skipn 2 datePatterns) Es) as (t & Ht & _).
      change (firstn 2 datePatterns ++ skipn 2 datePatterns)%list with datePatterns in Ht.
      congruence. }
    destruct (Regex.test dashShape s) eqn:Ed.
    { destruct (tryPatterns_dash h s Ed) as (t & Ht & _). congruence. }
    reflexivity.
  - cbn [existsb datePatterns fst tryPatterns]. intros H.
    repeat (apply orb_false_elim in H; destruct H as [? H]).
    repeat match goal with E : Regex.test _ s = false |- _ => rewrite E; clear E end.
    reflexivity.
Qed.

(** X14.  [parseDate] returns [null] in one case only: the token does not
    stand for today, its trimmed text matches none of the four patterns,
    and [new Date] of that text is invalid.  A token that matches a pattern
    never fails. *)
Theorem parseDate_fails_iff (h : Host) (k : nat) (tok : string) :
  fst (parseDate h k tok) = None <->
  todayToken tok = false /\
  existsb (fun pat => Regex.test (fst pat) (Str.trim tok)) datePatterns = false /\
  JSDate.ofString h (Str.trim tok) = None.
Proof.
  unfold parseDate, parseDateWith, todayToken.
  destruct ((tok =? "")%string || (Str.toLowerCase tok =? "null")%string).
  - cbn [fst]. split; [discriminate | intros [H _]; discriminate H].
  - rewrite <- (tryPatterns_None_iff h (Str.trim tok)).
    destruct (tryPatterns h datePatterns (Str.trim tok)) as [d|]; cbn [fst].
    + split; [discriminate | intros (_ & H & _); discriminate H].
    + tauto.
Qed.

Lemma trim_isoToken (a b c d e f g i : ascii) :
  Str.isDigit a = true -> Str.isDigit i = true ->
  Str.trim (isoToken a b c d e f g i) = isoToken a b c d e f g i.
Proof.
  intros Ha Hi.
  destruct (digit_facts a Ha) as (_ & _ & _ & Wa).
  destruct (digit_facts i Hi) as (_ & _ & _ & Wi).
  unfold Str.trim, isoToken, fourChars, twoChars.
  cbn [String.append Str.trimStart]. rewrite Wa.
  cbn [Str.trimEnd]. now rewrite Wi.
Qed.

Lemma isoToken_matches (a b c d e f g i : ascii) :
  Str.isDigit a = true -> Str.isDigit b = true -> Str.isDigit c = true ->
  Str.isDigit d = true -> Str.isDigit e = true -> Str.isDigit f = true ->
  Str.isDigit g = true -> Str.isDigit i = true ->
  Regex.test isoShape (isoToken a b c d e f g i) = true.
Proof.
  intros Ha Hb Hc Hd He Hf Hg Hi.
  unfold isoShape, isoToken, fourChars, twoChars.
  cbn [String.append Regex.test Regex.matchDigits].
  rewrite Ha, Hb, Hc, Hd. cbn [Ascii.eqb Bool.eqb andb].
  rewrite He, Hf. cbn [Ascii.eqb Bool.eqb andb].
  now rewrite Hg, Hi.
Qed.

(** X15.  A year written [00yy] is taken for [19yy]: for all digits, the
    token [00yy-MM-dd] and the token [19yy-MM-dd] give the same date. *)
Theorem two_digit_years (h : Host) (k : nat) (y3 y4 m1 m2 d1 d2 : ascii) :
  Forall (fun c => Str.isDigit c = true) [y3; y4; m1; m2; d1; d2] ->
  parseDate h k (isoToken "0" "0" y3 y4 m1 m2 d1 d2) =
  parseDate h k (isoToken "1" "9" y3 y4 m1 m2 d1 d2).
Proof.
  intros Hd. rewrite Forall_forall in Hd.
  assert (D3 : Str.isDigit y3 = true) by (apply Hd; simpl; auto 10).
  assert (D4 : Str.isDigit y4 = true) by (apply Hd; simpl; auto 10).
  assert (Dm1 : Str.isDigit m1 = true) by (apply Hd; simpl; auto 10).
  assert (Dm2 : Str.isDigit m2 = true) by (apply Hd; simpl; auto 10).
  assert (Dd1 : Str.isDigit d1 = true) by (apply Hd; simpl; auto 10).
  assert (Dd2 : Str.isDigit d2 = true) by (apply Hd; simpl; auto 10).
  assert (M0 : Regex.test isoShape (Str.trim (isoToken "0" "0" y3 y4 m1 m2 d1 d2)) = true).
  { rewrite trim_isoToken by (reflexivity || assumption).
    apply isoToken_matches; reflexivity || assumption. }
  assert (M1 : Regex.test isoShape (Str.trim (isoToken "1" "9" y3 y4 m1 m2 d1 d2)) = true).
  { rewrite trim_isoToken by (reflexivity || assumption).
    apply isoToken_matches; reflexivity || assumption. }
  destruct (tryPatterns_iso h _ M0) as (t & Ht & Hc).
  destruct (tryPatterns_iso h _ M1) as (t' & Ht' & Hc').
  assert (Hlen : forall x, Regex.test isoShape x = true -> (10 <= String.length x)%nat).
  { intros x Hx. destruct (isoShape_inv x Hx) as (? & ? & ? & ? & ? & ? & ? & ? & -> & _).
    simpl. lia. }
  rewrite (parseDate_matched h k _ isoShape t M0 Hlen Ht).
  rewrite (parseDate_matched h k _ isoShape t' M1 Hlen Ht').
  do 2 f_equal.
  rewrite trim_isoToken in Hc, Hc' by (reflexivity || assumption).
  unfold isoToken, fourChars, twoChars in Hc, Hc'.
  cbn [String.append substring] in Hc, Hc'.
  pose proof (proj1 (digit_facts y3 D3)) as B3.
  pose proof (proj1 (digit_facts y4 D4)) as B4.
  unfold JSDate.construct in Hc, Hc'.
  replace (JSDate.MakeFullYear
             (Str.decimalValue (String "1" (String "9" (String y3 (String y4 ""))))))
    with (JSDate.MakeFullYear
            (Str.decimalValue (String "0" (String "0" (String y3 (String y4 ""))))))
    in Hc'; [congruence|].
  unfold JSDate.MakeFullYear, Str.decimalValue. cbn [Str.decimalFrom].
  change (Str.digitValue "0") with 0. change (Str.digitValue "1") with 1.
  change (Str.digitValue "9") with 9.
  destruct (Z.leb_spec 0 (10 * (10 * (10 * (10 * 0 + 0) + 0) + Str.digitValue y3)
                          + Str.digitValue y4));
    destruct (Z.leb_spec (10 * (10 * (10 * (10 * 0 + 0) + 0) + Str.digitValue y3)
                          + Str.digitValue y4) 99);
    destruct (Z.leb_spec 0 (10 * (10 * (10 * (10 * 0 + 1) + 9) + Str.digitValue y3)
                          + Str.digitValue y4));
    destruct (Z.leb_spec (10 * (10 * (10 * (10 * 0 + 1) + 9) + Str.digitValue y3)
                          + Str.digitValue y4) 99);
    cbn [andb]; lia.
Qed.

Lemma two_digit_years_witness :
  Forall (fun c => Str.isDigit c = true) ["9"; "9"; "1"; "2"; "3"; "1"]%char /\
  parseDate RefHost.host 0 "0099-12-31" = parseDate RefHost.host 0 "1999-12-31".
Proof.
  assert (H : Forall (fun c => Str.isDigit c = true) ["9"; "9"; "1"; "2"; "3"; "1"]%char)
    by (repeat constructor).
  split; [exact H|].
  exact (two_digit_years RefHost.host 0 "9" "9" "1" "2" "3" "1" H).
Defined.

(** ** The clock *)

Lemma parseDate_given (h : Host) (now : nat -> Z) (k k' : nat) (tok : string) :
  todayToken tok = false ->
  parseDate (withClock h now) k tok = (fst (parseDate h k' tok), k) /\
  snd (parseDate h k' tok) = k'.
Proof.
  unfold todayToken, parseDate, parseDateWith. intros ->.
  change (tryPatterns (withClock h now) datePatterns (Str.trim tok))
    with (tryPatterns h datePatterns (Str.trim tok)).
  change (JSDate.ofString (withClock h now) (Str.trim tok))
    with (JSDate.ofString h (Str.trim tok)).
  destruct (tryPatterns h datePatterns (Str.trim tok)); split; reflexivity.
Qed.

(** X16.  The clock matters to a batch only through the date tokens that
    stand for today: when no row of four tokens or more has an empty or
    [null] date, [processData] gives the same state whatever the clock
    shows. *)
Theorem clock_matters_only_for_today (h : Host) (now : nat -> Z) (st : AppState)
  (data : list (list string)) :
  forallb datesGiven data = true ->
  (forall k k' records,
     readRecords (withClock h now) k data records = readRecords h k' data records) /\
  processData (withClock h now) st data = processData h st data.
Proof.
  intros Hgiven.
  assert (Hread : forall k k' records,
             readRecords (withClock h now) k data records = readRecords h k' data records).
  { induction data as [|row data IH]; intros k k' records; [reflexivity|].
    cbn [forallb] in Hgiven. apply andb_prop in Hgiven. destruct Hgiven as [Hrow Hdata].
    destruct row as [|r0 [|r1 [|r2 [|r3 tl]]]]; try (simpl; now apply IH).
    cbn [datesGiven] in Hrow. apply andb_prop in Hrow. destruct Hrow as [H2 H3].
    apply negb_true_iff in H2, H3.
    cbn [readRecords].
    destruct (parseDate_given h now k k' r2 H2) as [E2 K2]. rewrite E2.
    destruct (parseDate h k' r2) as [DateFrom k1]. simpl in K2. subst k1. cbn [fst].
    destruct (parseDate_given h now k k' r3 H3) as [E3 K3]. rewrite E3.
    destruct (parseDate h k' r3) as [DateTo k2]. simpl in K3. subst k2. cbn [fst].
    change (Number (withClock h now)) with (Number h).
    destruct (Number h r0), (Number h r1), DateFrom, DateTo; try reflexivity.
    now apply IH. }
  split; [exact Hread|].
  unfold processData. now rewrite (Hread 0%nat 0%nat []).
Qed.

Lemma clock_matters_only_for_today_witness :
  forallb datesGiven Sample.rows = true /\
  processData (withClock RefHost.host (fun _ => 0)) Sample.initial Sample.rows =
  processData RefHost.host Sample.initial Sample.rows.
Proof.
  assert (H : forallb datesGiven Sample.rows = true) by reflexivity.
  split; [exact H|].
  exact (proj2 (clock_matters_only_for_today RefHost.host (fun _ => 0) Sample.initial
                  Sample.rows H)).
Defined.

(** ** Records that do not pair *)

(** X17.  Two records of one employee never pair, nor two records of
    different projects, nor two records whose periods do not meet: a batch
    in which every two records are so gives two empty maps. *)
Theorem nothing_pairs (records : list EmployeeRecord) :
  (forall p1 p2, In p1 records -> In p2 records ->
                 EmpID p1 = EmpID p2 \/ ProjectID p1 <> ProjectID p2 \/
                 Z.min (DateTo p1) (DateTo p2) < Z.max (DateFrom p1) (DateFrom p2)) ->
  outerLoop records ([], []) = ([], []).
Proof.
  intros H. rewrite outerLoop_fold.
  assert (Hnil : contributions records = []); [|now rewrite Hnil].
  induction records as [|p1 rest IH]; [reflexivity|]. simpl.
  rewrite IH by (intros; apply H; now right).
  rewrite app_nil_r.
  assert (Hrest : forall p2, In p2 rest -> contribution p1 p2 = None).
  { intros p2 Hp2. unfold contribution.
    destruct (H p1 p2 (or_introl eq_refl) (or_intror Hp2)) as [He|[Hp|Hd]].
    - rewrite He, Z.eqb_refl, andb_false_r. reflexivity.
    - apply Z.eqb_neq in Hp. now rewrite Hp.
    - apply Z.leb_gt in Hd. rewrite Hd. now destruct (_ && _). }
  clear IH H. induction rest as [|p2 rest IH]; [reflexivity|]. simpl.
  rewrite (Hrest p2 (or_introl eq_refl)). simpl.
  apply IH. intros p Hp. apply Hrest. now right.
Qed.

Lemma nothing_pairs_witness :
  outerLoop [Sample.e1p1; Sample.e3p2; Sample.e1p1] ([], []) = ([], []).
Proof.
  apply (nothing_pairs [Sample.e1p1; Sample.e3p2; Sample.e1p1]).
  intros p1 p2 H1 H2. simpl in H1, H2.
  repeat match goal with
         | H : _ \/ _ |- _ => destruct H as [<- | H]
         | H : False |- _ => contradiction
         end;
    vm_compute; intuition congruence.
Defined.

(** ** The page *)

(** Leaving rows out keeps the keys of the others distinct. *)
Lemma rowKeys_filter (keep : PairProjectDays -> bool) (rows : list PairProjectDays) :
  NoDup (map rowKey rows) -> NoDup (map rowKey (filter keep rows)).
Proof.
  induction rows as [|row rows IH]; simpl; [trivial|].
  intros Hnd. inversion Hnd as [|? ? Hrow Hrows]; subst.
  destruct (keep row); simpl; [|auto].
  constructor; [|auto].
  intros Hin. apply Hrow. apply in_map_iff in Hin. destruct Hin as (other & Hkey & Hin).
  apply filter_In in Hin. apply in_map_iff. exists other. tauto.
Qed.

Lemma rowKeys_distinct (records : list EmployeeRecord) :
  NoDup (map rowKey (JSMap.values (fst (outerLoop records ([], []))))).
Proof.
  destruct (outerLoop_consistent records) as (Hpm & _ & Npm & _).
  rewrite (entry_keys records _ Hpm), map_map in Npm. exact Npm.
Qed.

(** X18.  The rows of a table have distinct keys, and the count shown is
    the number of rows: after a batch that passes validation, whenever the
    later revision renders a table, and likewise for the rows the earlier
    revision sets. *)
Theorem table_keys_distinct (h : Host) (st : AppState) (data : list (list string))
  (records : list EmployeeRecord) :
  readRecords h 0 data [] = Some records ->
  (forall count rows,
     body (render (processData h st data)) = Table count rows ->
     NoDup (map fst rows) /\ count = List.length rows /\ (0 < count)%nat /\
     map snd rows = pairs (processData h st data)) /\
  NoDup (map rowKey (pairs (Part000.processData h st data))).
Proof.
  intros Hread. split.
  - intros count rows. unfold render, processData. rewrite Hread.
    destruct (outerLoop records ([], [])) as [pm pt] eqn:E. cbn [body pairs fileUploaded].
    destruct (fileUploaded st); [|discriminate].
    destruct (Nat.ltb_spec 0 (List.length (selectTop pm pt))) as [Hpos|]; [|discriminate].
    intros [= <- <-].
    rewrite !map_map, length_map. cbn [fst snd]. rewrite map_id.
    split; [|auto].
    unfold selectTop. apply rowKeys_filter.
    pose proof (rowKeys_distinct records) as H. now rewrite E in H.
  - rewrite Part000_processData, Hread. cbn [pairs]. apply rowKeys_distinct.
Qed.

Lemma table_keys_distinct_witness :
  readRecords RefHost.host 0 Sample.rows [] = Some Sample.records /\
  NoDup (map rowKey (pairs (Part000.processData RefHost.host Sample.initial Sample.rows))).
Proof.
  assert (H : readRecords RefHost.host 0 Sample.rows [] = Some Sample.records)
    by reflexivity.
  split; [exact H|].
  exact (proj2 (table_keys_distinct RefHost.host Sample.initial Sample.rows
                  Sample.records H)).
Defined.

(** X19.  What the page shows when a file gives no result.  A text with a
    malformed row leaves the error message and no table, whatever was
    there before.  A failed reading leaves its error message next to the
    rows the state already held, which are rendered again even when they
    were hidden; choosing no file changes nothing. *)
Theorem failed_upload_views (h : Host) (st : AppState) :
  (forall text,
     existsb (malformedRow h) (parseCSV text) = true ->
     render (handleFileUpload h st (LoadedText text)) =
       {| message := Some invalidData; body := Hidden |}) /\
  (forall r message,
     (r = ReadError /\ message = "Error reading file.") \/
     (r = LoadedOther /\ message = "Failed to read file content.") ->
     render (handleFileUpload h st r) =
       {| message := Some message;
          body := match pairs st with
                  | [] => NonePairs
                  | _ => Table (List.length (pairs st))
                               (map (fun pair => (rowKey pair, pair)) (pairs st))
                  end |}) /\
  handleFileUpload h st NoFile = st.
Proof.
  split; [|split; [|reflexivity]].
  - intros text Hbad. unfold handleFileUpload.
    rewrite (processData_malformed h _ (parseCSV text) Hbad). reflexivity.
  - intros r message [[-> ->] | [-> ->]]; unfold render; simpl;
      destruct (pairs st); reflexivity.
Qed.

Lemma failed_upload_views_witness :
  existsb (malformedRow RefHost.host) (parseCSV "1,1,2024-01-01,2024-01-10
x,1,2024-01-05,2024-01-15") = true /\
  render (handleFileUpload RefHost.host Sample.initial (LoadedText "1,1,2024-01-01,2024-01-10
x,1,2024-01-05,2024-01-15")) = {| message := Some invalidData; body := Hidden |}.
Proof.
  assert (H : existsb (malformedRow RefHost.host) (parseCSV "1,1,2024-01-01,2024-01-10
x,1,2024-01-05,2024-01-15") = true) by reflexivity.
  split; [exact H|].
  exact (proj1 (failed_upload_views RefHost.host Sample.initial) _ H).
Defined.

Example upload_sample :
  render (handleFileUpload RefHost.host
            {| pairs := []; error := None; fileUploaded := false |}
            (LoadedText "EmpID,ProjectID,DateFrom,DateTo
1,1,2024-01-01,2024-01-10
2,1,2024-01-05,2024-01-15
1,2,2024-02-01,2024-02-05
3,2,2024-02-03,2024-02-10")) =
  {| message := Some invalidData; body := Hidden |}.
Proof. reflexivity. Qed.

Example upload_sample_rows :
  render (handleFileUpload RefHost.host
            {| pairs := []; error := None; fileUploaded := false |}
            (LoadedText "1,1,2024-01-01,2024-01-10
2,1,2024-01-05,2024-01-15
1,2,2024-02-01,2024-02-05
3,2,2024-02-03,2024-02-10")) =
  {| message := None;
     body := Table 1 [("1-2-1",
                       {| emp1 := 1; emp2 := 2; projectId := 1; totalDaysWorked := 6 |})] |}.
Proof. reflexivity. Qed.

(** X20.  White space around a date token is ignored, unless the token or
    its trimmed text stands for today: the token and its trimmed text then
    give the same result.  (A token such as [ null ], with the spaces, does
    not stand for today: only its trimmed text does.) *)
Theorem white_space_around_dates (h : Host) (k : nat) (tok : string) :
  todayToken tok = false -> todayToken (Str.trim tok) = false ->
  parseDate h k tok = parseDate h k (Str.trim tok).
Proof.
  unfold todayToken, parseDate, parseDateWith. intros -> ->.
  now rewrite trim_idempotent.
Qed.

Lemma white_space_around_dates_witness :
  todayToken "  2024-01-05 " = false /\ todayToken (Str.trim "  2024-01-05 ") = false /\
  parseDate RefHost.host 0 "  2024-01-05 " = (Some (Sample.day 2024 1 5), 0%nat) /\
  todayToken " null " = false /\ todayToken (Str.trim " null ") = true.
Proof.
  assert (H1 : todayToken "  2024-01-05 " = false) by reflexivity.
  assert (H2 : todayToken (Str.trim "  2024-01-05 ") = false) by reflexivity.
  split; [exact H1|]. split; [exact H2|].
  split; [|split; reflexivity].
  rewrite (white_space_around_dates RefHost.host 0 "  2024-01-05 " H1 H2).
  reflexivity.
Defined.
